(** * finance_manager: the settlement page and the ledger it drives

    A shallow embedding of [finance-manager/src/pages/SettlementPage.tsx]
    (its three successive revisions) and of the record types of
    [finance-manager/src/types], followed by the properties of the
    settlement design that the handlers decide.

    Layout: JavaScript values ([JS]), the record types, the page state and
    its handlers ([Page], with the first revision's filter in [PageV1]),
    the ledger operations of the storage side ([Ledger]), the dialogs and
    callbacks around the handlers ([View], with the second revision's edit
    handler in [PageV2]), then the lemmas. *)

From Stdlib Require Import ZArith QArith Lqa Ascii String List Bool DecimalString.
From Stdlib Require Import DecimalPos.
From stdpp Require Import gmap.
Import ListNotations.

Local Open Scope Z_scope.

(* ===================================================================== *)
(** ** JavaScript values *)
(* ===================================================================== *)

Module JS.

(** A JavaScript [number].  The three non-finite values are kept apart
    because the handlers' comparisons treat them specially; a finite value
    is carried as an exact rational, so binary64 rounding (and the sign of
    zero, which no comparison below can observe) is left out. *)
Inductive number : Type :=
| NaN
| PosInf
| NegInf
| Fin (q : Q).

Definition zero : number := Fin 0.

(** [Number.isNaN(n)] *)
Definition isNaN (n : number) : bool :=
  match n with NaN => true | _ => false end.

(** [Number.isFinite(n)] *)
Definition isFinite (n : number) : bool :=
  match n with Fin _ => true | _ => false end.

Definition Qltb (x y : Q) : bool := negb (Qle_bool y x).

(** [a < b]: false as soon as one side is NaN. *)
Definition lt (a b : number) : bool :=
  match a, b with
  | NaN, _ | _, NaN => false
  | PosInf, _ => false
  | _, NegInf => false
  | NegInf, _ => true
  | Fin _, PosInf => true
  | Fin x, Fin y => Qltb x y
  end.

(** [a <= b]: false as soon as one side is NaN. *)
Definition le (a b : number) : bool :=
  match a, b with
  | NaN, _ | _, NaN => false
  | NegInf, _ => true
  | _, PosInf => true
  | PosInf, _ => false
  | _, NegInf => false
  | Fin x, Fin y => Qle_bool x y
  end.

(** [a > b] *)
Definition gt (a b : number) : bool := lt b a.

(** [a === b] on numbers. *)
Definition strict_eq (a b : number) : bool :=
  match a, b with
  | PosInf, PosInf => true
  | NegInf, NegInf => true
  | Fin x, Fin y => Qeq_bool x y
  | _, _ => false
  end.

(** [a - b] *)
Definition sub (a b : number) : number :=
  match a, b with
  | NaN, _ | _, NaN => NaN
  | PosInf, PosInf => NaN
  | NegInf, NegInf => NaN
  | PosInf, _ => PosInf
  | NegInf, _ => NegInf
  | Fin _, PosInf => NegInf
  | Fin _, NegInf => PosInf
  | Fin x, Fin y => Fin (x - y)
  end.

(** [-a] *)
Definition neg (a : number) : number :=
  match a with
  | NaN => NaN
  | PosInf => NegInf
  | NegInf => PosInf
  | Fin x => Fin (- x)
  end.

(** [a + b] *)
Definition add (a b : number) : number :=
  match a, b with
  | NaN, _ | _, NaN => NaN
  | PosInf, NegInf => NaN
  | NegInf, PosInf => NaN
  | PosInf, _ | _, PosInf => PosInf
  | NegInf, _ | _, NegInf => NegInf
  | Fin x, Fin y => Fin (x + y)
  end.

(** Two numbers denote the same value (finite ones as rationals). *)
Definition same (a b : number) : Prop :=
  match a, b with
  | NaN, NaN => True
  | PosInf, PosInf => True
  | NegInf, NegInf => True
  | Fin x, Fin y => (x == y)%Q
  | _, _ => False
  end.

(** *** Strings

    A string is its sequence of code units; the embedding carries the code
    units below 256.  Among those the white space and line terminator
    characters are TAB, LF, VT, FF, CR, SP and NBSP. *)

Definition is_ws (c : ascii) : bool :=
  let n := N_of_ascii c in
  (((9 <=? n) && (n <=? 13)) || (n =? 32) || (n =? 160))%N.

(** [!s] on a string: only the empty string is falsy. *)
Definition falsy (s : string) : bool :=
  match s with EmptyString => true | String _ _ => false end.

Fixpoint trimStart (s : string) : string :=
  match s with
  | EmptyString => EmptyString
  | String c s' => if is_ws c then trimStart s' else s
  end.

Fixpoint trimEnd (s : string) : string :=
  match s with
  | EmptyString => EmptyString
  | String c s' =>
      match trimEnd s' with
      | EmptyString => if is_ws c then EmptyString else String c EmptyString
      | t => String c t
      end
  end.

(** [s.trim()] *)
Definition trim (s : string) : string := trimEnd (trimStart s).

(** Every character of [s] is white space (so also the empty string). *)
Fixpoint whitespace_only (s : string) : Prop :=
  match s with
  | EmptyString => True
  | String c s' => is_ws c = true /\ whitespace_only s'
  end.

(** [s] begins with a character that is not white space. *)
Definition starts_nonws (s : string) : Prop :=
  match s with
  | EmptyString => False
  | String c _ => is_ws c = false
  end.

(** [s] ends with a character that is not white space. *)
Fixpoint ends_nonws (s : string) : Prop :=
  match s with
  | EmptyString => False
  | String c EmptyString => is_ws c = false
  | String _ s' => ends_nonws s'
  end.

(** *** [Number(s)] on a string (StringToNumber)

    The literal is read exactly: a text such as "1e-400", which binary64
    takes to zero, or "1e400", which it takes to infinity, keeps its
    rational value here.  The lemmas below constrain the value [Number]
    returns, never the text it was read from. *)

Definition digit_of (radix : N) (c : ascii) : option Z :=
  let n := N_of_ascii c in
  let v := (if (48 <=? n) && (n <=? 57) then Some (n - 48)
            else if (97 <=? n) && (n <=? 102) then Some (n - 87)
            else if (65 <=? n) && (n <=? 70) then Some (n - 55)
            else None)%N in
  match v with
  | Some d => if (d <? radix)%N then Some (Z.of_N d) else None
  | None => None
  end.

(** Reads the longest run of digits in [radix] at the head of [s],
    continuing the value [acc]; returns the value, the number of digits
    read and the unread rest. *)
Fixpoint digits (radix : N) (s : string) (acc : Z) (cnt : nat)
  : Z * nat * string :=
  match s with
  | EmptyString => (acc, cnt, s)
  | String c s' =>
      match digit_of radix c with
      | Some d => digits radix s' (Z.of_N radix * acc + d) (S cnt)
      | None => (acc, cnt, s)
      end
  end.

(** The text after the mantissa: nothing, or a whole ExponentPart. *)
Definition exponentPart (s : string) : option Z :=
  match s with
  | EmptyString => Some 0
  | String c r =>
      if (c =? "e")%char || (c =? "E")%char then
        let '(sgn, r') :=
          match r with
          | String "+" r' => (1, r')
          | String "-" r' => (-1, r')
          | _ => (1, r)
          end in
        let '(v, n, rest) := digits 10 r' 0 0 in
        if (0 <? n)%nat && falsy rest then Some (sgn * v) else None
      else None
  end.

(** [m * 10^e] as a rational. *)
Definition scale10 (m e : Z) : Q :=
  if 0 <=? e then inject_Z (m * 10 ^ e) else m # Z.to_pos (10 ^ (- e)).

(** StrUnsignedDecimalLiteral *)
Definition unsignedDecimal (s : string) : option number :=
  if (s =? "Infinity")%string then Some PosInf else
  let '(i, ni, r1) := digits 10 s 0 0 in
  let '(m, nf, r2) :=
    match r1 with
    | String "." r => digits 10 r i 0
    | _ => (i, 0%nat, r1)
    end in
  if (0 <? ni)%nat || (0 <? nf)%nat then
    match exponentPart r2 with
    | Some e => Some (Fin (scale10 m (e - Z.of_nat nf)))
    | None => None
    end
  else None.

(** NonDecimalIntegerLiteral: [0x], [0o], [0b] and at least one digit. *)
Definition nonDecimal (s : string) : option number :=
  match s with
  | String "0" (String p r) =>
      let radix :=
        if (p =? "x")%char || (p =? "X")%char then Some 16%N
        else if (p =? "o")%char || (p =? "O")%char then Some 8%N
        else if (p =? "b")%char || (p =? "B")%char then Some 2%N
        else None in
      match radix with
      | Some rd =>
          let '(v, n, rest) := digits rd r 0 0 in
          if (0 <? n)%nat && falsy rest then Some (Fin (inject_Z v)) else None
      | None => None
      end
  | _ => None
  end.

Definition orNaN (o : option number) : number :=
  match o with Some n => n | None => NaN end.

Definition Number (s : string) : number :=
  let t := trim s in
  if falsy t then zero else
  match nonDecimal t with
  | Some n => n
  | None =>
      match t with
      | String "+" r => orNaN (unsignedDecimal r)
      | String "-" r => neg (orNaN (unsignedDecimal r))
      | _ => orNaN (unsignedDecimal t)
      end
  end.

(** [String(id)] for an integer identifier. *)
Definition String_ (id : Z) : string := NilZero.string_of_int (Z.to_int id).

End JS.

(* ===================================================================== *)
(** ** Record types (src/types) *)
(* ===================================================================== *)

Inductive TransactionStatus : Type := pending | partially_settled | settled.

Inductive Category : Type := work | personal.

Inductive Source : Type := salary | reimbursement | other.

Definition status_eqb (a b : TransactionStatus) : bool :=
  match a, b with
  | pending, pending | partially_settled, partially_settled
  | settled, settled => true
  | _, _ => false
  end.

Module Transaction.
Record t : Type := mk {
    id : Z;
    title : string;
    amount_out : JS.number;
    amount_reimbursed : JS.number;
    category : Category;
    status : TransactionStatus;
    created_at : string
  }.
End Transaction.

Module SalaryLog.
(** [remark] is optional and nullable: [None] stands for both. *)
Record t : Type := mk {
    id : Z;
    amount : JS.number;
    amount_unused : JS.number;
    month : string;
    source : Source;
    remark : option string;
    received_date : string
  }.
End SalaryLog.

Module TransactionCreate.
Record t : Type := mk {
    title : string;
    amount_out : JS.number;
    category : Category
  }.
End TransactionCreate.

Module TransactionUpdate.
Record t : Type := mk {
    title : string;
    amount_out : JS.number;
    category : Category
  }.
End TransactionUpdate.

Module SalaryLogCreate.
Record t : Type := mk {
    amount : JS.number;
    month : string;
    source : Source;
    remark : option string
  }.
End SalaryLogCreate.

Module SettleRequest.
Record t : Type := mk {
    transaction_id : Z;
    salary_log_id : JS.number;
    amount : JS.number
  }.
End SettleRequest.

(* ===================================================================== *)
(** ** The settlement page (latest revision) *)
(* ===================================================================== *)

Module Page.

(** The handlers below are those of the latest revision.  [handleSubmit],
    [handleCreateTransaction] and [handleCreateSalaryLog] read the same in
    the earlier revisions that have them; the second revision's
    [handleUpdateTransaction] differs only in sending no category. *)

(** The messages the handlers put in [formError], [entryError] and
    [editError]. *)
Inductive Message : Type :=
| msg_select_salary      (* "请选择一笔可用的回款"       *)
| msg_invalid_amount     (* "请输入有效金额"             *)
| msg_exceeds_debt       (* "核销金额不能超过未结清金额" *)
| msg_exceeds_salary     (* "核销金额不能超过回款余额"   *)
| msg_entry_title        (* "请输入垫付标题"             *)
| msg_entry_amount       (* "请输入有效的垫付金额"       *)
| msg_salary_amount      (* "请输入有效的回款金额"       *)
| msg_salary_month       (* "请选择回款月份"             *)
| msg_edit_title         (* "请输入账单标题"             *)
| msg_edit_amount.       (* "请输入有效的账单金额"       *)

(** What a handler hands to a mutation's [mutate]. *)
Inductive Request : Type :=
| settleMutation (payload : SettleRequest.t)
| transactionMutation (payload : TransactionCreate.t)
| salaryMutation (payload : SalaryLogCreate.t)
| updateMutation (id : Z) (payload : TransactionUpdate.t).

(** The part of the component state the handlers read and write (dialog
    flags, tabs and toasts are left out); [transactions] and [salaryLogs]
    are [transactionsQuery.data] and [salaryLogsQuery.data], [None] while
    undefined. *)
Record State : Type := mkState {
  selectedTransaction : option Transaction.t;
  selectedSalaryId : string;
  amount : string;
  formError : option Message;
  editingTransaction : option Transaction.t;
  editForm : TransactionUpdate.t;
  editError : option Message;
  transactionForm : TransactionCreate.t;
  salaryForm : SalaryLogCreate.t;
  entryError : option Message;
  transactions : option (list Transaction.t);
  salaryLogs : option (list SalaryLog.t)
}.

Definition setFormError (e : option Message) (st : State) : State :=
  mkState (selectedTransaction st) (selectedSalaryId st) (amount st) e
          (editingTransaction st) (editForm st) (editError st)
          (transactionForm st) (salaryForm st) (entryError st)
          (transactions st) (salaryLogs st).

Definition setEditError (e : option Message) (st : State) : State :=
  mkState (selectedTransaction st) (selectedSalaryId st) (amount st)
          (formError st)
          (editingTransaction st) (editForm st) e
          (transactionForm st) (salaryForm st) (entryError st)
          (transactions st) (salaryLogs st).

Definition setEntryError (e : option Message) (st : State) : State :=
  mkState (selectedTransaction st) (selectedSalaryId st) (amount st)
          (formError st)
          (editingTransaction st) (editForm st) (editError st)
          (transactionForm st) (salaryForm st) e
          (transactions st) (salaryLogs st).

(** A handler run: the state it leaves and the requests it issued.  What
    a mutation does once the server has answered ([onSuccess], [onError])
    happens after the handler has returned and is not part of its run. *)
Definition Outcome : Type := State * list Request.

(** [data ?? []] *)
Definition orEmpty {A} (data : option (list A)) : list A :=
  match data with Some l => l | None => [] end.

Definition unsettledTransactions (st : State) : list Transaction.t :=
  List.filter (fun item => negb (status_eqb (Transaction.status item) settled))
              (orEmpty (transactions st)).

Definition availableSalaryLogs (st : State) : list SalaryLog.t :=
  List.filter (fun item => JS.gt (SalaryLog.amount_unused item) JS.zero)
              (orEmpty (salaryLogs st)).

Definition selectedSalary (st : State) : option SalaryLog.t :=
  List.find (fun item =>
               String.eqb (JS.String_ (SalaryLog.id item)) (selectedSalaryId st))
            (availableSalaryLogs st).

Definition remainingDebt (st : State) : JS.number :=
  match selectedTransaction st with
  | None => JS.zero
  | Some tx => JS.sub (Transaction.amount_out tx) (Transaction.amount_reimbursed tx)
  end.

Definition handleSubmit (st : State) : Outcome :=
  match selectedTransaction st with
  | None => (st, [])
  | Some tx =>
      if JS.falsy (selectedSalaryId st) then
        (setFormError (Some msg_select_salary) st, [])
      else
        let numericAmount := JS.Number (amount st) in
        if JS.falsy (amount st) || JS.isNaN numericAmount
           || JS.le numericAmount JS.zero then
          (setFormError (Some msg_invalid_amount) st, [])
        else if JS.gt numericAmount (remainingDebt st) then
          (setFormError (Some msg_exceeds_debt) st, [])
        else if match selectedSalary st with
                | Some s => JS.gt numericAmount (SalaryLog.amount_unused s)
                | None => false
                end then
          (setFormError (Some msg_exceeds_salary) st, [])
        else
          (setFormError None st,
           [settleMutation
              (SettleRequest.mk (Transaction.id tx)
                                (JS.Number (selectedSalaryId st))
                                numericAmount)])
  end.

(** The guards of [handleSubmit], named. *)
Inductive Check : Type :=
| chk_transaction        (* [!selectedTransaction]                  *)
| chk_salary_selected    (* [!selectedSalaryId]                     *)
| chk_amount             (* [!amount || isNaN(n) || n <= 0]         *)
| chk_debt               (* [n > remainingDebt]                     *)
| chk_salary_balance.    (* [selectedSalary && n > amount_unused]   *)

(** Whether the guard of a check fires in a state, each taken on its own. *)
Definition fails (st : State) (c : Check) : bool :=
  let numericAmount := JS.Number (amount st) in
  match c with
  | chk_transaction =>
      match selectedTransaction st with None => true | Some _ => false end
  | chk_salary_selected => JS.falsy (selectedSalaryId st)
  | chk_amount =>
      JS.falsy (amount st) || JS.isNaN numericAmount
      || JS.le numericAmount JS.zero
  | chk_debt => JS.gt numericAmount (remainingDebt st)
  | chk_salary_balance =>
      match selectedSalary st with
      | Some s => JS.gt numericAmount (SalaryLog.amount_unused s)
      | None => false
      end
  end.

(** The message a failed check leaves; a missing transaction leaves none. *)
Definition message (c : Check) : option Message :=
  match c with
  | chk_transaction => None
  | chk_salary_selected => Some msg_select_salary
  | chk_amount => Some msg_invalid_amount
  | chk_debt => Some msg_exceeds_debt
  | chk_salary_balance => Some msg_exceeds_salary
  end.

(** The outcome of a submission stopped by check [c]. *)
Definition rejection (st : State) (c : Check) : Outcome :=
  match message c with
  | None => (st, [])
  | Some m => (setFormError (Some m) st, [])
  end.

(** The order in which [handleSubmit] runs its guards. *)
Definition rank (c : Check) : nat :=
  match c with
  | chk_transaction => 0
  | chk_salary_selected => 1
  | chk_amount => 2
  | chk_debt => 3
  | chk_salary_balance => 4
  end.

(** The order of the design text: amount validity, the debt entry, the
    income entry, the remaining debt, the unused balance. *)
Definition designRank (c : Check) : nat :=
  match c with
  | chk_amount => 0
  | chk_transaction => 1
  | chk_salary_selected => 2
  | chk_debt => 3
  | chk_salary_balance => 4
  end.

(** Under the order [rk], a submission is stopped by its earliest failing
    check. *)
Definition earliest_failure_wins (rk : Check -> nat) : Prop :=
  forall (st : State) (c : Check),
    fails st c = true ->
    (forall c', (rk c' < rk c)%nat -> fails st c' = false) ->
    handleSubmit st = rejection st c.

(** The amount of a submission is a finite value strictly above zero. *)
Definition finitePositive (n : JS.number) : bool :=
  JS.isFinite n && JS.gt n JS.zero.

(** The stored status agrees with the two amounts: the status invariant of
    the data model, as far as [settled] goes. *)
Definition statusInvariant (item : Transaction.t) : Prop :=
  JS.le JS.zero (Transaction.amount_reimbursed item) = true /\
  JS.le (Transaction.amount_reimbursed item) (Transaction.amount_out item) = true /\
  (Transaction.status item = settled <->
   JS.strict_eq (Transaction.amount_reimbursed item)
                (Transaction.amount_out item) = true).

(** [transactionForm.amount_out] is already a number, on which [Number]
    is the identity. *)
Definition handleCreateTransaction (st : State) : Outcome :=
  let form := transactionForm st in
  let numericAmount := TransactionCreate.amount_out form in
  if JS.falsy (JS.trim (TransactionCreate.title form)) then
    (setEntryError (Some msg_entry_title) st, [])
  else if JS.isNaN numericAmount || JS.le numericAmount JS.zero then
    (setEntryError (Some msg_entry_amount) st, [])
  else
    (setEntryError None st,
     [transactionMutation
        (TransactionCreate.mk (TransactionCreate.title form)
                              numericAmount
                              (TransactionCreate.category form))]).

(** [remark?.trim() || null] *)
Definition normalizeRemark (remark : option string) : option string :=
  match remark with
  | None => None
  | Some r => if JS.falsy (JS.trim r) then None else Some (JS.trim r)
  end.

Definition handleCreateSalaryLog (st : State) : Outcome :=
  let form := salaryForm st in
  let numericAmount := SalaryLogCreate.amount form in
  if JS.isNaN numericAmount || JS.le numericAmount JS.zero then
    (setEntryError (Some msg_salary_amount) st, [])
  else if JS.falsy (SalaryLogCreate.month form) then
    (setEntryError (Some msg_salary_month) st, [])
  else
    (setEntryError None st,
     [salaryMutation
        (SalaryLogCreate.mk numericAmount
                            (SalaryLogCreate.month form)
                            (SalaryLogCreate.source form)
                            (normalizeRemark (SalaryLogCreate.remark form)))]).

Definition handleUpdateTransaction (st : State) : Outcome :=
  match editingTransaction st with
  | None => (st, [])
  | Some tx =>
      let form := editForm st in
      if JS.falsy (JS.trim (TransactionUpdate.title form)) then
        (setEditError (Some msg_edit_title) st, [])
      else
        let numericAmount := TransactionUpdate.amount_out form in
        if JS.isNaN numericAmount || JS.le numericAmount JS.zero then
          (setEditError (Some msg_edit_amount) st, [])
        else
          (setEditError None st,
           [updateMutation
              (Transaction.id tx)
              (TransactionUpdate.mk (JS.trim (TransactionUpdate.title form))
                                    numericAmount
                                    (TransactionUpdate.category form))])
  end.

End Page.

(** The first revision of the page computes the unsettled list from the
    two amounts instead of the stored status. *)
Module PageV1.

Definition unsettledTransactions (data : option (list Transaction.t))
  : list Transaction.t :=
  List.filter
    (fun item =>
       JS.gt (JS.sub (Transaction.amount_out item)
                     (Transaction.amount_reimbursed item))
             JS.zero)
    (Page.orEmpty data).

End PageV1.

(* ===================================================================== *)
(** ** The ledger behind the page *)
(* ===================================================================== *)

Module Ledger.

(** The store: debt entries and income entries, each keyed by its
    identifier, in the shape the page receives them. *)
Record t : Type := mk {
  debtEntries : gmap Z Transaction.t;
  incomeEntries : gmap Z SalaryLog.t
}.

Inductive Error : Type :=
| invalid_amount         (* ValidationError *)
| debt_not_found         (* NotFoundError   *)
| income_not_found       (* NotFoundError   *)
| exceeds_outstanding    (* ConflictError   *)
| exceeds_available.     (* ConflictError   *)

(** Modelled from the spec: the status formula of the data model (the
    storage side that recomputes it is not part of the sources). *)
Definition recomputeStatus (amountOut amountReimbursed : JS.number)
  : TransactionStatus :=
  if JS.strict_eq amountReimbursed amountOut then settled
  else if JS.gt amountReimbursed JS.zero then partially_settled
  else pending.

Definition reimburse (amount : JS.number) (d : Transaction.t) : Transaction.t :=
  let r := JS.add (Transaction.amount_reimbursed d) amount in
  Transaction.mk (Transaction.id d) (Transaction.title d)
                 (Transaction.amount_out d) r (Transaction.category d)
                 (recomputeStatus (Transaction.amount_out d) r)
                 (Transaction.created_at d).

Definition consume (amount : JS.number) (i : SalaryLog.t) : SalaryLog.t :=
  SalaryLog.mk (SalaryLog.id i) (SalaryLog.amount i)
               (JS.sub (SalaryLog.amount_unused i) amount)
               (SalaryLog.month i) (SalaryLog.source i) (SalaryLog.remark i)
               (SalaryLog.received_date i).

(** Modelled from the spec: the operation [settle(debtEntryId,
    incomeEntryId, amount)] of the settlement engine, which the page
    reaches through [POST /settle] and whose implementation is not part of
    the sources.  The five preconditions are checked in the order the spec
    lists them; the effect writes both balances in one step.  The result is
    the ledger after the call together with the error or the two updated
    entries. *)
Definition settle (L : t) (debtEntryId incomeEntryId : Z) (amount : JS.number)
  : t * (Error + Transaction.t * SalaryLog.t) :=
  if negb (JS.isFinite amount && JS.gt amount JS.zero) then
    (L, inl invalid_amount)
  else
    match debtEntries L !! debtEntryId with
    | None => (L, inl debt_not_found)
    | Some d =>
        match incomeEntries L !! incomeEntryId with
        | None => (L, inl income_not_found)
        | Some i =>
            if negb (JS.le amount
                           (JS.sub (Transaction.amount_out d)
                                   (Transaction.amount_reimbursed d))) then
              (L, inl exceeds_outstanding)
            else if negb (JS.le amount (SalaryLog.amount_unused i)) then
              (L, inl exceeds_available)
            else
              let d' := reimburse amount d in
              let i' := consume amount i in
              (mk (<[debtEntryId := d']> (debtEntries L))
                  (<[incomeEntryId := i']> (incomeEntries L)),
               inr (d', i'))
        end
    end.

(** Modelled from the spec: [createIncomeEntry(amount, month, source,
    remark?)] of the entry lifecycle manager (reached through
    [POST /salary_logs/], implementation not part of the sources): it
    requires [amount > 0] and a non-empty month and initializes
    [amountUnused = amount] and [receivedDate = now].  [newId] is the
    identifier the store assigns. *)
Definition createIncomeEntry (newId : Z) (now : string)
    (payload : SalaryLogCreate.t) : option SalaryLog.t :=
  if JS.gt (SalaryLogCreate.amount payload) JS.zero
     && negb (JS.falsy (SalaryLogCreate.month payload)) then
    Some (SalaryLog.mk newId
                       (SalaryLogCreate.amount payload)
                       (SalaryLogCreate.amount payload)
                       (SalaryLogCreate.month payload)
                       (SalaryLogCreate.source payload)
                       (SalaryLogCreate.remark payload)
                       now)
  else None.

(** Sums of the summary aggregator. *)
Definition sum (l : list JS.number) : JS.number := foldr JS.add JS.zero l.

Definition sumOver {A} (f : A -> JS.number) (m : gmap Z A) : JS.number :=
  sum (f <$> (map_to_list m).*2).

Definition totalLent (L : t) : JS.number :=
  sumOver Transaction.amount_out (debtEntries L).

Definition totalReimbursed (L : t) : JS.number :=
  sumOver Transaction.amount_reimbursed (debtEntries L).

Definition currentDebt (L : t) : JS.number :=
  JS.sub (totalLent L) (totalReimbursed L).

Definition cashWaitingAllocation (L : t) : JS.number :=
  sumOver SalaryLog.amount_unused (incomeEntries L).

End Ledger.

(* ===================================================================== *)
(** ** Sample data *)
(* ===================================================================== *)

Module Sample.

Local Open Scope string_scope.

Definition tx (out reimbursed : Q) (s : TransactionStatus) : Transaction.t :=
  Transaction.mk 1 "fuel" (JS.Fin out) (JS.Fin reimbursed) work s
                 "2024-05-01T00:00:00".

Definition log (id : Z) (total unused : Q) : SalaryLog.t :=
  SalaryLog.mk id (JS.Fin total) (JS.Fin unused) "2024-05" salary None
               "2024-05-31T00:00:00".

(** A page with the settle dialog open on [t]. *)
Definition dialog (t : Transaction.t) (salaryId amount : string)
    (logs : list SalaryLog.t) : Page.State :=
  Page.mkState (Some t) salaryId amount None
               None (TransactionUpdate.mk "" JS.zero work) None
               (TransactionCreate.mk "" JS.zero work)
               (SalaryLogCreate.mk JS.zero "" salary (Some ""))
               None (Some [t]) (Some logs).

(** A page with the edit dialog open on [t]. *)
Definition editing (t : Transaction.t) (form : TransactionUpdate.t)
  : Page.State :=
  Page.mkState None "" "" None
               (Some t) form None
               (TransactionCreate.mk "" JS.zero work)
               (SalaryLogCreate.mk JS.zero "" salary (Some ""))
               None (Some [t]) (Some []).

(** A page with the two entry forms filled in. *)
Definition entering (tf : TransactionCreate.t) (sf : SalaryLogCreate.t)
  : Page.State :=
  Page.mkState None "" "" None
               None (TransactionUpdate.mk "" JS.zero work) None
               tf sf None (Some []) (Some []).

(** The ledger of the first end-to-end scenario: one debt of 300, one
    income of 500. *)
Definition ledger : Ledger.t :=
  Ledger.mk {[ 1 := tx 300 0 pending ]} {[ 7 := log 7 500 500 ]}.

End Sample.

(* ===================================================================== *)
(** ** The rest of the page: dialogs, tabs and mutation callbacks *)
(* ===================================================================== *)

Module View.

Inductive Tab : Type := tab_pending | tab_history.

Inductive ToastType : Type := success | error.

(** The texts handed to [showToast]. *)
Inductive ToastText : Type :=
| toast_settled         (* "核销成功"   *)
| toast_recorded        (* "垫付已记录" *)
| toast_received        (* "回款已入账" *)
| toast_updated         (* "账单已更新" *)
| toast_deleted.        (* "账单已删除" *)

(** The message a failed delete leaves in [deleteError]. *)
Inductive DeleteMessage : Type :=
| msg_delete_failed.    (* "删除失败，请稍后重试" *)

(** The query keys a mutation invalidates once it has succeeded. *)
Inductive QueryKey : Type := key_transactions | key_salary_logs | key_summary.

(** The requests of the page: those of the four form handlers and the
    delete request. *)
Inductive Request : Type :=
| form (r : Page.Request)
| deleteMutation (id : Z).

(** The whole component state: the part the form handlers use and the
    dialog flags, tab, menu, delete dialog and toast around it. *)
Record t : Type := mk {
  page : Page.State;
  open : bool;
  transactionOpen : bool;
  salaryOpen : bool;
  salaryListOpen : bool;
  toast : option (ToastText * ToastType);
  activeTab : Tab;
  menuOpenId : option Z;
  editOpen : bool;
  deleteOpen : bool;
  deleteError : option DeleteMessage;
  deletingTransaction : option Transaction.t
}.

(** State setters on the form part. *)
Definition setSelectedTransaction (x : option Transaction.t) (p : Page.State)
  : Page.State :=
  Page.mkState x (Page.selectedSalaryId p) (Page.amount p) (Page.formError p)
    (Page.editingTransaction p) (Page.editForm p) (Page.editError p)
    (Page.transactionForm p) (Page.salaryForm p) (Page.entryError p)
    (Page.transactions p) (Page.salaryLogs p).

Definition setSelectedSalaryId (x : string) (p : Page.State) : Page.State :=
  Page.mkState (Page.selectedTransaction p) x (Page.amount p) (Page.formError p)
    (Page.editingTransaction p) (Page.editForm p) (Page.editError p)
    (Page.transactionForm p) (Page.salaryForm p) (Page.entryError p)
    (Page.transactions p) (Page.salaryLogs p).

Definition setAmount (x : string) (p : Page.State) : Page.State :=
  Page.mkState (Page.selectedTransaction p) (Page.selectedSalaryId p) x
    (Page.formError p)
    (Page.editingTransaction p) (Page.editForm p) (Page.editError p)
    (Page.transactionForm p) (Page.salaryForm p) (Page.entryError p)
    (Page.transactions p) (Page.salaryLogs p).

Definition setEditingTransaction (x : option Transaction.t) (p : Page.State)
  : Page.State :=
  Page.mkState (Page.selectedTransaction p) (Page.selectedSalaryId p)
    (Page.amount p) (Page.formError p)
    x (Page.editForm p) (Page.editError p)
    (Page.transactionForm p) (Page.salaryForm p) (Page.entryError p)
    (Page.transactions p) (Page.salaryLogs p).

Definition setEditForm (x : TransactionUpdate.t) (p : Page.State)
  : Page.State :=
  Page.mkState (Page.selectedTransaction p) (Page.selectedSalaryId p)
    (Page.amount p) (Page.formError p)
    (Page.editingTransaction p) x (Page.editError p)
    (Page.transactionForm p) (Page.salaryForm p) (Page.entryError p)
    (Page.transactions p) (Page.salaryLogs p).

Definition setTransactionForm (x : TransactionCreate.t) (p : Page.State)
  : Page.State :=
  Page.mkState (Page.selectedTransaction p) (Page.selectedSalaryId p)
    (Page.amount p) (Page.formError p)
    (Page.editingTransaction p) (Page.editForm p) (Page.editError p)
    x (Page.salaryForm p) (Page.entryError p)
    (Page.transactions p) (Page.salaryLogs p).

Definition setSalaryForm (x : SalaryLogCreate.t) (p : Page.State)
  : Page.State :=
  Page.mkState (Page.selectedTransaction p) (Page.selectedSalaryId p)
    (Page.amount p) (Page.formError p)
    (Page.editingTransaction p) (Page.editForm p) (Page.editError p)
    (Page.transactionForm p) x (Page.entryError p)
    (Page.transactions p) (Page.salaryLogs p).

(** State setters on the rest. *)
Definition onPage (f : Page.State -> Page.State) (v : t) : t :=
  mk (f (page v)) (open v) (transactionOpen v) (salaryOpen v)
     (salaryListOpen v) (toast v) (activeTab v) (menuOpenId v) (editOpen v)
     (deleteOpen v) (deleteError v) (deletingTransaction v).

Definition setOpen (x : bool) (v : t) : t :=
  mk (page v) x (transactionOpen v) (salaryOpen v)
     (salaryListOpen v) (toast v) (activeTab v) (menuOpenId v) (editOpen v)
     (deleteOpen v) (deleteError v) (deletingTransaction v).

Definition setTransactionOpen (x : bool) (v : t) : t :=
  mk (page v) (open v) x (salaryOpen v)
     (salaryListOpen v) (toast v) (activeTab v) (menuOpenId v) (editOpen v)
     (deleteOpen v) (deleteError v) (deletingTransaction v).

Definition setSalaryOpen (x : bool) (v : t) : t :=
  mk (page v) (open v) (transactionOpen v) x
     (salaryListOpen v) (toast v) (activeTab v) (menuOpenId v) (editOpen v)
     (deleteOpen v) (deleteError v) (deletingTransaction v).

Definition setSalaryListOpen (x : bool) (v : t) : t :=
  mk (page v) (open v) (transactionOpen v) (salaryOpen v)
     x (toast v) (activeTab v) (menuOpenId v) (editOpen v)
     (deleteOpen v) (deleteError v) (deletingTransaction v).

Definition setToast (x : option (ToastText * ToastType)) (v : t) : t :=
  mk (page v) (open v) (transactionOpen v) (salaryOpen v)
     (salaryListOpen v) x (activeTab v) (menuOpenId v) (editOpen v)
     (deleteOpen v) (deleteError v) (deletingTransaction v).

Definition setActiveTab (x : Tab) (v : t) : t :=
  mk (page v) (open v) (transactionOpen v) (salaryOpen v)
     (salaryListOpen v) (toast v) x (menuOpenId v) (editOpen v)
     (deleteOpen v) (deleteError v) (deletingTransaction v).

Definition setEditOpen (x : bool) (v : t) : t :=
  mk (page v) (open v) (transactionOpen v) (salaryOpen v)
     (salaryListOpen v) (toast v) (activeTab v) (menuOpenId v) x
     (deleteOpen v) (deleteError v) (deletingTransaction v).

Definition setDeleteOpen (x : bool) (v : t) : t :=
  mk (page v) (open v) (transactionOpen v) (salaryOpen v)
     (salaryListOpen v) (toast v) (activeTab v) (menuOpenId v) (editOpen v)
     x (deleteError v) (deletingTransaction v).

Definition setDeleteError (x : option DeleteMessage) (v : t) : t :=
  mk (page v) (open v) (transactionOpen v) (salaryOpen v)
     (salaryListOpen v) (toast v) (activeTab v) (menuOpenId v) (editOpen v)
     (deleteOpen v) x (deletingTransaction v).

Definition setDeletingTransaction (x : option Transaction.t) (v : t) : t :=
  mk (page v) (open v) (transactionOpen v) (salaryOpen v)
     (salaryListOpen v) (toast v) (activeTab v) (menuOpenId v) (editOpen v)
     (deleteOpen v) (deleteError v) x.

(** [showToast(message)], with the default type. *)
Definition showToast (message : ToastText) (v : t) : t :=
  setToast (Some (message, success)) v.

Definition displayTransactions (v : t) : list Transaction.t :=
  match activeTab v with
  | tab_pending => Page.unsettledTransactions (page v)
  | tab_history => Page.orEmpty (Page.transactions (page v))
  end.

(** The amounts the two tables compute for a row. *)
Definition due (item : Transaction.t) : JS.number :=
  JS.sub (Transaction.amount_out item) (Transaction.amount_reimbursed item).

Definition usedAmount (log : SalaryLog.t) : JS.number :=
  JS.sub (SalaryLog.amount log) (SalaryLog.amount_unused log).

(** Whether a row of the table carries the settle button. *)
Definition hasSettleButton (item : Transaction.t) : bool :=
  negb (status_eqb (Transaction.status item) settled).

Definition openDialog (transaction : Transaction.t) (v : t) : t :=
  setOpen true
    (onPage (fun p =>
               Page.setFormError None
                 (setAmount EmptyString
                    (setSelectedSalaryId EmptyString
                       (setSelectedTransaction (Some transaction) p))))
            v).

Definition openTransactionDialog (v : t) : t :=
  setTransactionOpen true (onPage (Page.setEntryError None) v).

Definition openSalaryDialog (v : t) : t :=
  setSalaryOpen true (onPage (Page.setEntryError None) v).

Definition openSalaryList (v : t) : t := setSalaryListOpen true v.

Definition openEditDialog (transaction : Transaction.t) (v : t) : t :=
  setEditOpen true
    (onPage (fun p =>
               Page.setEditError None
                 (setEditForm
                    (TransactionUpdate.mk (Transaction.title transaction)
                                          (Transaction.amount_out transaction)
                                          (Transaction.category transaction))
                    (setEditingTransaction (Some transaction) p)))
            v).

Definition openDeleteDialog (transaction : Transaction.t) (v : t) : t :=
  setDeleteOpen true
    (setDeleteError None (setDeletingTransaction (Some transaction) v)).

(** The form handlers, run on the whole state. *)
Definition run (h : Page.State -> Page.Outcome) (v : t) : t * list Request :=
  let '(p, rs) := h (page v) in (onPage (fun _ => p) v, List.map form rs).

Definition handleDeleteTransaction (v : t) : t * list Request :=
  match deletingTransaction v with
  | None => (v, [])
  | Some tx => (v, [deleteMutation (Transaction.id tx)])
  end.

(** The [onSuccess] callbacks: the keys invalidated, then the state
    changes. *)
Definition settle_onSuccess (v : t) : t * list QueryKey :=
  (showToast toast_settled (setOpen false v),
   [key_transactions; key_salary_logs; key_summary]).

Definition transaction_onSuccess (v : t) : t * list QueryKey :=
  (showToast toast_recorded
     (setTransactionOpen false
        (onPage (fun p =>
                   Page.setEntryError None
                     (setTransactionForm
                        (TransactionCreate.mk EmptyString JS.zero work) p))
                v)),
   [key_transactions; key_summary]).

Definition salary_onSuccess (v : t) : t * list QueryKey :=
  (showToast toast_received
     (setSalaryOpen false
        (onPage (fun p =>
                   Page.setEntryError None
                     (setSalaryForm
                        (SalaryLogCreate.mk JS.zero EmptyString salary
                                            (Some EmptyString)) p))
                v)),
   [key_salary_logs; key_summary]).

Definition update_onSuccess (v : t) : t * list QueryKey :=
  (showToast toast_updated (setEditOpen false v),
   [key_transactions; key_summary]).

Definition delete_onSuccess (v : t) : t * list QueryKey :=
  (showToast toast_deleted (setDeleteOpen false v),
   [key_transactions; key_summary]).

End View.

(** The second revision of the page edits title and amount only. *)
Module PageV2.

Module TransactionUpdate.
Record t : Type := mk {
  title : string;
  amount_out : JS.number
}.
End TransactionUpdate.

(** The part of the state its edit handler uses. *)
Record EditState : Type := mkEdit {
  editingTransaction : option Transaction.t;
  editForm : TransactionUpdate.t;
  editError : option Page.Message
}.

Definition setEditError (e : option Page.Message) (st : EditState)
  : EditState :=
  mkEdit (editingTransaction st) (editForm st) e.

Definition handleUpdateTransaction (st : EditState)
  : EditState * list (Z * TransactionUpdate.t) :=
  match editingTransaction st with
  | None => (st, [])
  | Some tx =>
      if JS.falsy (JS.trim (TransactionUpdate.title (editForm st))) then
        (setEditError (Some Page.msg_edit_title) st, [])
      else
        let numericAmount := TransactionUpdate.amount_out (editForm st) in
        if JS.isNaN numericAmount || JS.le numericAmount JS.zero then
          (setEditError (Some Page.msg_edit_amount) st, [])
        else
          (setEditError None st,
           [(Transaction.id tx,
             TransactionUpdate.mk
               (JS.trim (TransactionUpdate.title (editForm st)))
               numericAmount)])
  end.

End PageV2.

(** What the second revision's edit handler sees of a later state. *)
Definition ofLater (st : Page.State) : PageV2.EditState :=
  PageV2.mkEdit
    (Page.editingTransaction st)
    (PageV2.TransactionUpdate.mk
       (TransactionUpdate.title (Page.editForm st))
       (TransactionUpdate.amount_out (Page.editForm st)))
    (Page.editError st).

(** A later update request without its category. *)
Definition withoutCategory (r : Page.Request)
  : option (Z * PageV2.TransactionUpdate.t) :=
  match r with
  | Page.updateMutation id p =>
      Some (id, PageV2.TransactionUpdate.mk (TransactionUpdate.title p)
                                            (TransactionUpdate.amount_out p))
  | _ => None
  end.

(* ===================================================================== *)
(** ** Decimal numerals *)
(* ===================================================================== *)

Module Numeral.

(** The value of a decimal numeral read from the left, continuing [acc]. *)
Fixpoint value (d : Decimal.uint) (acc : Z) : Z :=
  match d with
  | Decimal.Nil => acc
  | Decimal.D0 l => value l (10 * acc + 0)
  | Decimal.D1 l => value l (10 * acc + 1)
  | Decimal.D2 l => value l (10 * acc + 2)
  | Decimal.D3 l => value l (10 * acc + 3)
  | Decimal.D4 l => value l (10 * acc + 4)
  | Decimal.D5 l => value l (10 * acc + 5)
  | Decimal.D6 l => value l (10 * acc + 6)
  | Decimal.D7 l => value l (10 * acc + 7)
  | Decimal.D8 l => value l (10 * acc + 8)
  | Decimal.D9 l => value l (10 * acc + 9)
  end.

(** No character of [s] is white space. *)
Fixpoint solid (s : string) : Prop :=
  match s with
  | EmptyString => True
  | String c s' => JS.is_ws c = false /\ solid s'
  end.

End Numeral.

(* ===================================================================== *)
(** ** More sample data *)
(* ===================================================================== *)

Module Scenario.

Local Open Scope string_scope.

(** A page at rest showing the given entries and salary logs. *)
Definition idle (txs : list Transaction.t) (logs : list SalaryLog.t) : View.t :=
  View.mk
    (Page.mkState None "" "" None
                  None (TransactionUpdate.mk "" JS.zero work) None
                  (TransactionCreate.mk "" JS.zero work)
                  (SalaryLogCreate.mk JS.zero "" salary (Some ""))
                  None (Some txs) (Some logs))
    false false false false None View.tab_pending None false false None None.

Definition three : list Transaction.t :=
  [Sample.tx 300 0 pending; Sample.tx 300 100 partially_settled;
   Sample.tx 300 300 settled].

End Scenario.

(* ===================================================================== *)
(** ** Numbers and strings *)
(* ===================================================================== *)

Section JSFacts.

Import JS.

Lemma Qltb_lt (x y : Q) : Qltb x y = true <-> (x < y)%Q.
Proof.
  unfold Qltb. rewrite negb_true_iff.
  split; intros H.
  - apply Qnot_le_lt. intros Hle. apply Qle_bool_iff in Hle. congruence.
  - destruct (Qle_bool y x) eqn:E; [|reflexivity].
    apply Qle_bool_iff in E. exfalso. eapply Qlt_not_le; eauto.
Qed.

Lemma Qltb_le_false (x y : Q) : Qltb x y = false <-> (y <= x)%Q.
Proof.
  unfold Qltb. rewrite negb_false_iff. apply Qle_bool_iff.
Qed.

(** What [n <= 0] accepts. *)
Lemma le_zero_iff (n : number) :
  le n zero = true <-> n = NegInf \/ exists q, n = Fin q /\ (q <= 0)%Q.
Proof.
  destruct n as [| | |q]; simpl; split; intros H;
    try discriminate; try reflexivity; try (left; reflexivity);
    try (destruct H as [H|[q' [H _]]]; discriminate).
  - right. exists q. split; [reflexivity|]. now apply Qle_bool_iff.
  - destruct H as [H|[q' [H Hq]]]; [discriminate|].
    injection H as ->. now apply Qle_bool_iff.
Qed.

(** What [n > 0] accepts. *)
Lemma gt_zero_iff (n : number) :
  gt n zero = true <-> n = PosInf \/ exists q, n = Fin q /\ (0 < q)%Q.
Proof.
  unfold gt.
  destruct n as [| | |q]; simpl; split; intros H;
    try discriminate; try reflexivity; try (left; reflexivity);
    try (destruct H as [H|[q' [H _]]]; discriminate).
  - right. exists q. split; [reflexivity|]. now apply Qltb_lt.
  - destruct H as [H|[q' [H Hq]]]; [discriminate|].
    injection H as ->. now apply Qltb_lt.
Qed.

(** A number above zero passes the amount guard of the forms. *)
Lemma gt_zero_passes (n : number) :
  gt n zero = true -> isNaN n || le n zero = false.
Proof.
  intros H. apply gt_zero_iff in H as [->|[q [-> Hq]]]; simpl; [reflexivity|].
  destruct (Qle_bool q 0) eqn:E; [|reflexivity].
  apply Qle_bool_iff in E. exfalso. eapply Qlt_not_le; eauto.
Qed.

(** Conversely, what passes the amount guard is above zero. *)
Lemma passes_gt_zero (n : number) :
  isNaN n || le n zero = false -> gt n zero = true.
Proof.
  destruct n as [| | |q]; simpl; try discriminate; try reflexivity.
  intros H. unfold gt. simpl. unfold Qltb. now rewrite H.
Qed.

Lemma falsy_empty (s : string) : falsy s = true <-> s = EmptyString.
Proof. destruct s; simpl; split; congruence. Qed.

Lemma falsy_nonempty (s : string) : falsy s = false <-> s <> EmptyString.
Proof. destruct s; simpl; split; congruence. Qed.

Lemma Number_empty : Number EmptyString = zero.
Proof. reflexivity. Qed.

End JSFacts.

(* ===================================================================== *)
(** ** Submitting a settlement *)
(* ===================================================================== *)

Section Submit.

Import JS Page.

Local Open Scope string_scope.

(** [handleSubmit] as the cascade of its five guards. *)
Lemma handleSubmit_cascade (st : State) :
  handleSubmit st =
  if fails st chk_transaction then rejection st chk_transaction
  else if fails st chk_salary_selected then rejection st chk_salary_selected
  else if fails st chk_amount then rejection st chk_amount
  else if fails st chk_debt then rejection st chk_debt
  else if fails st chk_salary_balance then rejection st chk_salary_balance
  else match selectedTransaction st with
       | Some tx =>
           (setFormError None st,
            [settleMutation
               (SettleRequest.mk (Transaction.id tx)
                                 (Number (selectedSalaryId st))
                                 (Number (amount st)))])
       | None => (st, [])
       end.
Proof.
  unfold handleSubmit, fails, rejection.
  destruct (selectedTransaction st); reflexivity.
Qed.

(** A positive amount is never stopped by the amount guard. *)
Lemma positive_amount_passes (st : State) :
  gt (Number (amount st)) zero = true -> fails st chk_amount = false.
Proof.
  intros Hpos. unfold fails.
  destruct (amount st) eqn:Ea.
  - rewrite Number_empty in Hpos. discriminate Hpos.
  - simpl falsy. simpl orb. now apply gt_zero_passes.
Qed.

(** C2, as the code has it.  [handleSubmit] runs its guards in the order
    selected transaction, selected salary id, amount validity, remaining
    debt, unused balance of the matched salary log; a submission failing
    several of them is stopped by the earliest one in that order.  A
    missing transaction stops the submission silently, the other four
    guards leave four different messages, and a submission that fails no
    guard issues the settle request. *)
Theorem handleSubmit_earliest_failure :
  earliest_failure_wins rank /\
  (forall c c', c <> c' -> message c <> message c') /\
  (forall st, (forall c, fails st c = false) ->
     exists tx, selectedTransaction st = Some tx /\
       handleSubmit st =
       (setFormError None st,
        [settleMutation
           (SettleRequest.mk (Transaction.id tx)
                             (Number (selectedSalaryId st))
                             (Number (amount st)))])).
Proof.
  split; [|split].
  - intros st c Hc Hearlier. rewrite handleSubmit_cascade.
    destruct c; simpl in Hearlier;
      repeat match goal with
      | |- context [fails st ?c'] =>
          first [ rewrite Hc
                | rewrite (Hearlier c') by (simpl; lia) ]
      end; reflexivity.
  - intros c c' Hne. destruct c, c'; simpl; congruence.
  - intros st Hpass. rewrite handleSubmit_cascade.
    rewrite !Hpass.
    pose proof (Hpass chk_transaction) as Htx. simpl in Htx.
    destruct (selectedTransaction st) as [tx|]; [|discriminate].
    exists tx. split; reflexivity.
Qed.

(** With no salary chosen and no amount typed, the message is the one of
    the salary guard. *)
Lemma handleSubmit_earliest_failure_witness :
  handleSubmit (Sample.dialog (Sample.tx 100 0 pending) "" "" []) =
  rejection (Sample.dialog (Sample.tx 100 0 pending) "" "" [])
            chk_salary_selected.
Proof.
  apply (proj1 handleSubmit_earliest_failure).
  - reflexivity.
  - intros c' Hlt. destruct c'; simpl in Hlt; try lia. reflexivity.
Defined.

(** C2, as stated: the design order (amount validity first) is not the
    order of the code.  With a transaction selected, no salary chosen and
    no amount typed, the amount check is the earliest failing one of the
    design order, yet the submission is stopped by the salary guard. *)
Lemma design_order_refuted : ~ earliest_failure_wins designRank.
Proof.
  intros H.
  specialize (H (Sample.dialog (Sample.tx 100 0 pending) "" "" [])
                chk_amount eq_refl).
  assert (Hvac : forall c', (designRank c' < designRank chk_amount)%nat ->
            fails (Sample.dialog (Sample.tx 100 0 pending) "" "" []) c' = false).
  { intros c' Hlt. simpl in Hlt. lia. }
  specialize (H Hvac). vm_compute in H. discriminate H.
Qed.

(** The first two guards pass when a transaction and a salary id are
    selected. *)
Lemma selection_passes (st : State) (tx : Transaction.t) :
  selectedTransaction st = Some tx ->
  selectedSalaryId st <> "" ->
  fails st chk_transaction = false /\ fails st chk_salary_selected = false.
Proof.
  intros Htx Hid. unfold fails. rewrite Htx.
  split; [reflexivity|]. now apply falsy_nonempty.
Qed.

(** What the amount guard rejects, in terms of the typed text and its
    numeric value. *)
Lemma amount_guard_iff (st : State) :
  fails st chk_amount = true <->
  amount st = "" \/ Number (amount st) = NaN \/ Number (amount st) = NegInf
  \/ exists q, Number (amount st) = Fin q /\ (q <= 0)%Q.
Proof.
  unfold fails. rewrite !orb_true_iff, falsy_empty, le_zero_iff.
  split.
  - intros [[H|H]|H]; auto.
    right. left. destruct (Number (amount st)); simpl in H; congruence.
  - intros [H|[H|H]]; auto.
    left. right. rewrite H. reflexivity.
Qed.

(** C3, as the code has it.  With a transaction and a salary id selected,
    an amount that is empty, not a number, zero, negative or negative
    infinity is rejected with the invalid-amount message and no request is
    issued; positive infinity is not stopped by the amount guard. *)
Theorem invalid_amount_rejected (st : State) (tx : Transaction.t) :
  selectedTransaction st = Some tx ->
  selectedSalaryId st <> "" ->
  (amount st = "" \/ Number (amount st) = NaN \/ Number (amount st) = NegInf
   \/ (exists q, Number (amount st) = Fin q /\ (q <= 0)%Q) ->
   handleSubmit st = (setFormError (Some msg_invalid_amount) st, [])) /\
  (Number (amount st) = PosInf ->
   handleSubmit st <> (setFormError (Some msg_invalid_amount) st, [])).
Proof.
  intros Htx Hid.
  destruct (selection_passes st tx Htx Hid) as [H1 H2].
  rewrite handleSubmit_cascade, H1, H2. split.
  - intros Hbad. apply amount_guard_iff in Hbad. rewrite Hbad. reflexivity.
  - intros Hinf.
    assert (Hok : fails st chk_amount = false).
    { apply positive_amount_passes. rewrite Hinf. reflexivity. }
    rewrite Hok, Htx. unfold rejection.
    destruct (fails st chk_debt); [simpl; intros E; inversion E|].
    destruct (fails st chk_salary_balance); simpl; intros E; inversion E.
Qed.

(** A negative amount, "-5", is rejected as invalid. *)
Lemma invalid_amount_rejected_witness :
  handleSubmit (Sample.dialog (Sample.tx 100 0 pending) "7" "-5"
                              [Sample.log 7 500 500]) =
  (setFormError (Some msg_invalid_amount)
     (Sample.dialog (Sample.tx 100 0 pending) "7" "-5" [Sample.log 7 500 500]),
   []).
Proof.
  refine (proj1 (invalid_amount_rejected
                   (Sample.dialog (Sample.tx 100 0 pending) "7" "-5"
                                  [Sample.log 7 500 500])
                   (Sample.tx 100 0 pending) eq_refl _) _).
  - discriminate.
  - right. right. right. exists (- 5)%Q. split; [reflexivity|].
    unfold Qle. simpl. lia.
Defined.

(** C3, as stated: an infinite amount is not a finite value above zero,
    yet with 100 outstanding the text "Infinity" is answered with the
    exceeds-debt message, not the invalid-amount one. *)
Lemma infinite_amount_not_invalid :
  ~ (forall (st : State) (tx : Transaction.t),
       selectedTransaction st = Some tx ->
       selectedSalaryId st <> "" ->
       finitePositive (Number (amount st)) = false ->
       handleSubmit st = (setFormError (Some msg_invalid_amount) st, [])).
Proof.
  intros H.
  specialize (H (Sample.dialog (Sample.tx 100 0 pending) "7" "Infinity"
                               [Sample.log 7 500 500])
                (Sample.tx 100 0 pending) eq_refl).
  assert (Hid : "7" <> "") by discriminate.
  specialize (H Hid eq_refl). vm_compute in H. discriminate H.
Qed.

(** C4, as the code has it.  Against a selected entry whose reimbursed
    amount equals its finite amount, the remaining debt is zero and every
    submission with a salary id selected and an amount whose numeric value
    is above zero is stopped by the remaining-debt guard: the exceeds-debt
    message is set and no request is issued. *)
Theorem settled_entry_rejects (st : State) (tx : Transaction.t) :
  selectedTransaction st = Some tx ->
  isFinite (Transaction.amount_out tx) = true ->
  strict_eq (Transaction.amount_reimbursed tx) (Transaction.amount_out tx)
  = true ->
  selectedSalaryId st <> "" ->
  gt (Number (amount st)) zero = true ->
  same (remainingDebt st) zero /\
  handleSubmit st = (setFormError (Some msg_exceeds_debt) st, []).
Proof.
  intros Htx Hfin Heq Hid Hpos.
  destruct (selection_passes st tx Htx Hid) as [H1 H2].
  assert (Hrem : exists d, remainingDebt st = Fin d /\ (d == 0)%Q).
  { unfold remainingDebt. rewrite Htx.
    destruct (Transaction.amount_out tx) as [| | |o]; try discriminate.
    destruct (Transaction.amount_reimbursed tx) as [| | |r]; try discriminate.
    simpl in Heq. apply Qeq_bool_iff in Heq.
    exists (o - r)%Q. split; [reflexivity|]. rewrite Heq. ring. }
  destruct Hrem as [d [Hd Hd0]]. split.
  - rewrite Hd. exact Hd0.
  - rewrite handleSubmit_cascade, H1, H2.
    rewrite (positive_amount_passes st Hpos).
    assert (Hdebt : fails st chk_debt = true).
    { unfold fails. rewrite Hd.
      apply gt_zero_iff in Hpos as [->|[q [-> Hq]]]; [reflexivity|].
      unfold gt. simpl. apply Qltb_lt. now rewrite Hd0. }
    rewrite Hdebt. reflexivity.
Qed.

(** A settled entry of 300, an available salary log and the amount "50". *)
Lemma settled_entry_rejects_witness :
  handleSubmit (Sample.dialog (Sample.tx 300 300 settled) "7" "50"
                              [Sample.log 7 500 500]) =
  (setFormError (Some msg_exceeds_debt)
     (Sample.dialog (Sample.tx 300 300 settled) "7" "50"
                    [Sample.log 7 500 500]),
   []).
Proof.
  refine (proj2 (settled_entry_rejects
                   (Sample.dialog (Sample.tx 300 300 settled) "7" "50"
                                  [Sample.log 7 500 500])
                   (Sample.tx 300 300 settled)
                   eq_refl eq_refl eq_refl _ eq_refl)).
  discriminate.
Defined.

(** C4, as stated: not every submission of an amount above zero against
    a settled entry ends with the exceeds-debt message.  With a settled
    entry of 300, the amount "50" and no salary id chosen, the salary
    guard runs first and leaves its own message.  And with a salary id
    chosen, an entry whose two amounts are both infinite has a remaining
    debt that is not a number, which no amount exceeds: the request for 50
    is issued. *)
Lemma settled_entry_other_outcomes :
  ~ (forall (st : State) (tx : Transaction.t),
       selectedTransaction st = Some tx ->
       strict_eq (Transaction.amount_reimbursed tx) (Transaction.amount_out tx)
       = true ->
       gt (Number (amount st)) zero = true ->
       handleSubmit st = (setFormError (Some msg_exceeds_debt) st, []))
  /\
  ~ (forall (st : State) (tx : Transaction.t),
       selectedTransaction st = Some tx ->
       strict_eq (Transaction.amount_reimbursed tx) (Transaction.amount_out tx)
       = true ->
       selectedSalaryId st <> "" ->
       gt (Number (amount st)) zero = true ->
       handleSubmit st = (setFormError (Some msg_exceeds_debt) st, [])).
Proof.
  split; intros H.
  - specialize (H (Sample.dialog (Sample.tx 300 300 settled) "" "50"
                                 [Sample.log 7 500 500])
                  (Sample.tx 300 300 settled) eq_refl eq_refl eq_refl).
    vm_compute in H. discriminate H.
  - specialize (H (Sample.dialog
                     (Transaction.mk 1 "fuel" PosInf PosInf work settled
                                     "2024-05-01T00:00:00")
                     "7" "50" [Sample.log 7 500 500])
                  (Transaction.mk 1 "fuel" PosInf PosInf work settled
                                  "2024-05-01T00:00:00")
                  eq_refl eq_refl).
    assert (Hid : "7" <> "") by discriminate.
    specialize (H Hid eq_refl). vm_compute in H. discriminate H.
Qed.

(** C9.  When the selected salary id matches no available salary log, the
    unused-balance guard does not run: a submission that passed the amount
    and remaining-debt guards is issued with that id and that amount. *)
Theorem unmatched_salary_skips_balance_guard (st : State) (tx : Transaction.t) :
  selectedTransaction st = Some tx ->
  selectedSalaryId st <> "" ->
  selectedSalary st = None ->
  fails st chk_amount = false ->
  fails st chk_debt = false ->
  handleSubmit st =
  (setFormError None st,
   [settleMutation
      (SettleRequest.mk (Transaction.id tx)
                        (Number (selectedSalaryId st))
                        (Number (amount st)))]).
Proof.
  intros Htx Hid Hnone Hamt Hdebt.
  destruct (selection_passes st tx Htx Hid) as [H1 H2].
  rewrite handleSubmit_cascade, H1, H2, Hamt, Hdebt.
  unfold fails at 1. rewrite Hnone, Htx. reflexivity.
Qed.

(** The salary log 7 has nothing left, so it is not among the available
    ones; the id "7" is still selected and 50 is asked for: the request
    goes out, for more than the log holds. *)
Lemma unmatched_salary_skips_balance_guard_witness :
  let logs := [Sample.log 7 500 0] in
  let st := Sample.dialog (Sample.tx 100 0 pending) "7" "50" logs in
  gt (Number (amount st)) (JS.Fin 0) = true /\
  handleSubmit st =
  (setFormError None st,
   [settleMutation (SettleRequest.mk 1 (JS.Fin 7) (JS.Fin 50))]).
Proof.
  split; [reflexivity|].
  refine (unmatched_salary_skips_balance_guard
            (Sample.dialog (Sample.tx 100 0 pending) "7" "50"
                           [Sample.log 7 500 0])
            (Sample.tx 100 0 pending) eq_refl _ eq_refl eq_refl eq_refl).
  discriminate.
Defined.

End Submit.

(* ===================================================================== *)
(** ** Trimming *)
(* ===================================================================== *)

Section Trim.

Import JS.

Local Open Scope string_scope.

Lemma trimStart_empty_iff (s : string) :
  trimStart s = "" <-> whitespace_only s.
Proof.
  induction s as [|c s IH]; simpl.
  - tauto.
  - destruct (is_ws c) eqn:E.
    + rewrite IH. tauto.
    + split; [discriminate|]. intros [H _]. discriminate H.
Qed.

Lemma trimEnd_empty_iff (s : string) :
  trimEnd s = "" <-> whitespace_only s.
Proof.
  induction s as [|c s IH]; simpl.
  - tauto.
  - destruct (trimEnd s) eqn:Et.
    + destruct (is_ws c) eqn:E.
      * split; [intros _; split; [reflexivity|now apply IH]|reflexivity].
      * split; [discriminate|]. intros [H _]. discriminate H.
    + split; [discriminate|]. intros [_ H]. apply IH in H. discriminate H.
Qed.

(** What [trimStart] leaves is empty or begins with a visible character. *)
Lemma trimStart_head (s : string) :
  trimStart s = "" \/ starts_nonws (trimStart s).
Proof.
  induction s as [|c s IH]; simpl; [now left|].
  destruct (is_ws c) eqn:E; [exact IH|]. right. exact E.
Qed.

Lemma starts_nonws_not_ws_only (s : string) :
  starts_nonws s -> ~ whitespace_only s.
Proof.
  destruct s as [|c s]; simpl; [tauto|]. intros E [H _]. congruence.
Qed.

(** [trim] returns the empty string exactly on white space. *)
Lemma trim_empty_iff (s : string) : trim s = "" <-> whitespace_only s.
Proof.
  unfold trim. rewrite trimEnd_empty_iff. split.
  - intros H. apply trimStart_empty_iff.
    destruct (trimStart_head s) as [E|E]; [exact E|].
    now apply starts_nonws_not_ws_only in E.
  - intros H. apply trimStart_empty_iff in H. rewrite H. exact I.
Qed.

Lemma falsy_trim_iff (s : string) :
  falsy (trim s) = true <-> whitespace_only s.
Proof. rewrite falsy_empty. apply trim_empty_iff. Qed.

Lemma trimStart_skip (pre s : string) :
  whitespace_only pre -> trimStart (pre ++ s) = trimStart s.
Proof.
  induction pre as [|c pre IH]; simpl; [reflexivity|].
  intros [Hc Hpre]. rewrite Hc. now apply IH.
Qed.

Lemma trimStart_fixed (s : string) : starts_nonws s -> trimStart s = s.
Proof. destruct s as [|c s]; simpl; [tauto|]. now intros ->. Qed.

Lemma trimEnd_drop (core suf : string) :
  ends_nonws core -> whitespace_only suf -> trimEnd (core ++ suf) = core.
Proof.
  intros Hcore Hsuf. induction core as [|c core IH]; [destruct Hcore|].
  destruct core as [|c' core].
  - simpl in Hcore. apply trimEnd_empty_iff in Hsuf.
    change (trimEnd (String c "" ++ suf))
      with (match trimEnd suf with
            | "" => if is_ws c then "" else String c ""
            | t => String c t
            end).
    now rewrite Hsuf, Hcore.
  - change (String c (String c' core) ++ suf)
      with (String c (String c' core ++ suf)).
    change (trimEnd (String c (String c' core ++ suf)))
      with (match trimEnd (String c' core ++ suf) with
            | "" => if is_ws c then "" else String c ""
            | t => String c t
            end).
    rewrite IH by exact Hcore. reflexivity.
Qed.

(** [trim] removes the white space around a text that begins and ends
    with visible characters. *)
Lemma trim_core (pre core suf : string) :
  whitespace_only pre -> whitespace_only suf ->
  starts_nonws core -> ends_nonws core ->
  trim (pre ++ core ++ suf) = core.
Proof.
  intros Hpre Hsuf Hs He. unfold trim.
  rewrite trimStart_skip by exact Hpre.
  rewrite trimStart_fixed.
  - now apply trimEnd_drop.
  - destruct core; [destruct Hs|exact Hs].
Qed.

End Trim.

(* ===================================================================== *)
(** ** The unsettled list *)
(* ===================================================================== *)

Section Unsettled.

Import JS.

(** Under the status invariant an entry has an outstanding balance above
    zero exactly when its status is not [settled]. *)
Lemma outstanding_iff_unsettled (item : Transaction.t) :
  Page.statusInvariant item ->
  gt (sub (Transaction.amount_out item) (Transaction.amount_reimbursed item))
     zero
  = negb (status_eqb (Transaction.status item) settled).
Proof.
  intros (H0 & Hle & Hst).
  assert (Hs : forall b, (Transaction.status item = settled <-> b = true) ->
                 negb (status_eqb (Transaction.status item) settled) = negb b).
  { intros b Hb. destruct (Transaction.status item), b; simpl; try reflexivity;
      exfalso; destruct Hb as [Hb1 Hb2];
      try (specialize (Hb2 eq_refl); discriminate Hb2);
      try (specialize (Hb1 eq_refl); discriminate Hb1). }
  rewrite (Hs _ Hst). clear Hs Hst.
  destruct (Transaction.amount_reimbursed item) as [| | |r];
    destruct (Transaction.amount_out item) as [| | |o];
    simpl in *; try discriminate; try reflexivity.
  unfold gt. simpl. unfold Qltb. f_equal.
  apply Qle_bool_iff in H0, Hle.
  destruct (Qeq_bool r o) eqn:E.
  - apply Qeq_bool_iff in E. apply Qle_bool_iff. rewrite E. lra.
  - destruct (Qle_bool (o - r) 0) eqn:E'; [|reflexivity].
    apply Qle_bool_iff in E'. apply Qeq_bool_neq in E.
    exfalso. apply E. lra.
Qed.

(** C5.  On every list whose entries satisfy the status invariant, the
    filter of the first revision (outstanding balance above zero) and the
    filter of the later revisions (status other than [settled]) return the
    same list. *)
Theorem unsettled_filters_agree (st : Page.State) :
  Forall Page.statusInvariant (Page.orEmpty (Page.transactions st)) ->
  PageV1.unsettledTransactions (Page.transactions st)
  = Page.unsettledTransactions st.
Proof.
  intros Hinv. unfold PageV1.unsettledTransactions, Page.unsettledTransactions.
  apply List.filter_ext_in. intros item Hin.
  apply outstanding_iff_unsettled.
  exact (proj1 (List.Forall_forall _ _) Hinv item Hin).
Qed.

(** A pending, a partially settled and a settled entry: both filters keep
    the first two. *)
Lemma unsettled_filters_agree_witness :
  let l := [Sample.tx 300 0 pending; Sample.tx 300 100 partially_settled;
            Sample.tx 300 300 settled] in
  let st := Page.mkState None "" "" None None
              (TransactionUpdate.mk "" zero work) None
              (TransactionCreate.mk "" zero work)
              (SalaryLogCreate.mk zero "" salary None) None (Some l) None in
  PageV1.unsettledTransactions (Some l) = Page.unsettledTransactions st /\
  Page.unsettledTransactions st
  = [Sample.tx 300 0 pending; Sample.tx 300 100 partially_settled].
Proof.
  split; [|reflexivity].
  refine (unsettled_filters_agree
            (Page.mkState None "" "" None None
               (TransactionUpdate.mk "" zero work) None
               (TransactionCreate.mk "" zero work)
               (SalaryLogCreate.mk zero "" salary None) None
               (Some [Sample.tx 300 0 pending;
                      Sample.tx 300 100 partially_settled;
                      Sample.tx 300 300 settled]) None) _).
  repeat constructor; simpl; try reflexivity; try discriminate.
Defined.

End Unsettled.

(* ===================================================================== *)
(** ** Creating and editing entries *)
(* ===================================================================== *)

Section Entries.

Import JS Page.

Local Open Scope string_scope.

(** C6.  With an entry being edited, a title that is not blank and an
    amount above zero, the update is issued with the trimmed title, that
    amount and the category; the entry's reimbursed amount is not
    consulted, so an amount below it is accepted like any other. *)
Theorem update_ignores_reimbursed (st : State) (tx : Transaction.t) :
  editingTransaction st = Some tx ->
  trim (TransactionUpdate.title (editForm st)) <> "" ->
  gt (TransactionUpdate.amount_out (editForm st)) zero = true ->
  handleUpdateTransaction st =
  (setEditError None st,
   [updateMutation
      (Transaction.id tx)
      (TransactionUpdate.mk (trim (TransactionUpdate.title (editForm st)))
                            (TransactionUpdate.amount_out (editForm st))
                            (TransactionUpdate.category (editForm st)))]).
Proof.
  intros Htx Htitle Hpos. unfold handleUpdateTransaction. rewrite Htx.
  apply falsy_nonempty in Htitle. rewrite Htitle.
  rewrite (gt_zero_passes _ Hpos). reflexivity.
Qed.

(** An entry of 300 with 200 already reimbursed is rewritten to 50. *)
Lemma update_ignores_reimbursed_witness :
  let t := Sample.tx 300 200 partially_settled in
  let st := Sample.editing t (TransactionUpdate.mk " fuel " (Fin 50) work) in
  lt (Fin 50) (Transaction.amount_reimbursed t) = true /\
  handleUpdateTransaction st =
  (setEditError None st,
   [updateMutation 1 (TransactionUpdate.mk "fuel" (Fin 50) work)]).
Proof.
  split; [reflexivity|].
  refine (update_ignores_reimbursed
            (Sample.editing (Sample.tx 300 200 partially_settled)
                            (TransactionUpdate.mk " fuel " (Fin 50) work))
            (Sample.tx 300 200 partially_settled) eq_refl _ eq_refl).
  discriminate.
Defined.

(** C7.  [handleCreateTransaction] sets a validation message and issues
    nothing when the title is empty or blank, or the amount is NaN or at
    most zero; in every other case it issues the create request with the
    form's title, amount and category. *)
Theorem create_transaction_validation (st : State) :
  let form := transactionForm st in
  let bad := whitespace_only (TransactionCreate.title form) \/
             TransactionCreate.amount_out form = NaN \/
             le (TransactionCreate.amount_out form) zero = true in
  (bad -> exists m, handleCreateTransaction st = (setEntryError (Some m) st, []))
  /\
  (~ bad ->
   handleCreateTransaction st =
   (setEntryError None st,
    [transactionMutation
       (TransactionCreate.mk (TransactionCreate.title form)
                             (TransactionCreate.amount_out form)
                             (TransactionCreate.category form))])).
Proof.
  intros form bad. unfold handleCreateTransaction. fold form.
  destruct (falsy (trim (TransactionCreate.title form))) eqn:Et.
  - split; [eauto|]. intros Hn. exfalso. apply Hn. left.
    now apply falsy_trim_iff.
  - assert (Hnws : ~ whitespace_only (TransactionCreate.title form)).
    { intros H. apply falsy_trim_iff in H. congruence. }
    destruct (isNaN (TransactionCreate.amount_out form)
              || le (TransactionCreate.amount_out form) zero) eqn:Ea.
    + split; [eauto|]. intros Hn. exfalso. apply Hn. right.
      apply orb_true_iff in Ea as [Ea|Ea]; [left|now right].
      destruct (TransactionCreate.amount_out form); simpl in Ea; congruence.
    + split; [|reflexivity]. intros [H|[H|H]]; [contradiction| |].
      * rewrite H in Ea. discriminate Ea.
      * rewrite H, orb_true_r in Ea. discriminate Ea.
Qed.

(** A blank title is refused; "fuel" for 300 is sent. *)
Lemma create_transaction_validation_witness :
  (exists m,
     handleCreateTransaction
       (Sample.entering (TransactionCreate.mk "   " (Fin 300) work)
                        (SalaryLogCreate.mk zero "" salary None))
     = (setEntryError (Some m)
          (Sample.entering (TransactionCreate.mk "   " (Fin 300) work)
                           (SalaryLogCreate.mk zero "" salary None)), []))
  /\
  handleCreateTransaction
    (Sample.entering (TransactionCreate.mk "fuel" (Fin 300) work)
                     (SalaryLogCreate.mk zero "" salary None))
  = (setEntryError None
       (Sample.entering (TransactionCreate.mk "fuel" (Fin 300) work)
                        (SalaryLogCreate.mk zero "" salary None)),
     [transactionMutation (TransactionCreate.mk "fuel" (Fin 300) work)]).
Proof.
  split.
  - refine (proj1 (create_transaction_validation
                     (Sample.entering (TransactionCreate.mk "   " (Fin 300) work)
                                      (SalaryLogCreate.mk zero "" salary None)))
                  _).
    left. simpl. repeat split; reflexivity.
  - refine (proj2 (create_transaction_validation
                     (Sample.entering (TransactionCreate.mk "fuel" (Fin 300) work)
                                      (SalaryLogCreate.mk zero "" salary None)))
                  _).
    simpl. intros [[H _]|[H|H]]; discriminate H.
Defined.

(** The only request [handleCreateSalaryLog] can issue. *)
Lemma handleCreateSalaryLog_issued (st st' : State) (rs : list Request) :
  handleCreateSalaryLog st = (st', rs) ->
  rs = [] \/
  rs = [salaryMutation
          (SalaryLogCreate.mk
             (SalaryLogCreate.amount (salaryForm st))
             (SalaryLogCreate.month (salaryForm st))
             (SalaryLogCreate.source (salaryForm st))
             (normalizeRemark (SalaryLogCreate.remark (salaryForm st))))].
Proof.
  unfold handleCreateSalaryLog.
  destruct (isNaN _ || le _ zero); [intros [= _ <-]; now left|].
  destruct (falsy _); intros [= _ <-]; [now left|now right].
Qed.

(** C8.  [handleCreateSalaryLog] sets a validation message and issues
    nothing when the amount is NaN or at most zero, or the month is empty;
    in every other case it issues the create request with the form's
    amount, month and source, and the income entry created from that
    request starts with its unused amount equal to its amount. *)
Theorem create_salary_log_validation (st : State) :
  let form := salaryForm st in
  let bad := SalaryLogCreate.amount form = NaN \/
             le (SalaryLogCreate.amount form) zero = true \/
             SalaryLogCreate.month form = "" in
  (bad -> exists m, handleCreateSalaryLog st = (setEntryError (Some m) st, []))
  /\
  (~ bad ->
   exists p,
     handleCreateSalaryLog st = (setEntryError None st, [salaryMutation p]) /\
     SalaryLogCreate.amount p = SalaryLogCreate.amount form /\
     SalaryLogCreate.month p = SalaryLogCreate.month form /\
     SalaryLogCreate.source p = SalaryLogCreate.source form /\
     forall (newId : Z) (now : string),
     exists e,
       Ledger.createIncomeEntry newId now p = Some e /\
       SalaryLog.amount e = SalaryLogCreate.amount form /\
       SalaryLog.amount_unused e = SalaryLog.amount e).
Proof.
  intros form bad. unfold handleCreateSalaryLog. fold form.
  destruct (isNaN (SalaryLogCreate.amount form)
            || le (SalaryLogCreate.amount form) zero) eqn:Ea.
  - split; [eauto|]. intros Hn. exfalso. apply Hn.
    apply orb_true_iff in Ea as [Ea|Ea]; [left|now right; left].
    destruct (SalaryLogCreate.amount form); simpl in Ea; congruence.
  - destruct (falsy (SalaryLogCreate.month form)) eqn:Em.
    + split; [eauto|]. intros Hn. exfalso. apply Hn. right. right.
      now apply falsy_empty.
    + split.
      * intros [H|[H|H]].
        -- rewrite H in Ea. discriminate Ea.
        -- rewrite H, orb_true_r in Ea. discriminate Ea.
        -- apply falsy_empty in H. congruence.
      * intros _. eexists. split; [reflexivity|].
        cbn [SalaryLogCreate.amount SalaryLogCreate.month
             SalaryLogCreate.source].
        repeat split.
        intros newId now. unfold Ledger.createIncomeEntry.
        cbn [SalaryLogCreate.amount SalaryLogCreate.month
             SalaryLogCreate.source SalaryLogCreate.remark].
        rewrite (passes_gt_zero _ Ea), Em.
        eexists. split; [reflexivity|]. split; reflexivity.
Qed.

(** An amount of zero is refused; 500 for "2024-05" is sent and the entry
    made from it has 500 unused. *)
Lemma create_salary_log_validation_witness :
  (exists m,
     handleCreateSalaryLog
       (Sample.entering (TransactionCreate.mk "" zero work)
                        (SalaryLogCreate.mk zero "2024-05" salary None))
     = (setEntryError (Some m)
          (Sample.entering (TransactionCreate.mk "" zero work)
                           (SalaryLogCreate.mk zero "2024-05" salary None)),
        []))
  /\
  (exists p,
     handleCreateSalaryLog
       (Sample.entering (TransactionCreate.mk "" zero work)
                        (SalaryLogCreate.mk (Fin 500) "2024-05" salary None))
     = (setEntryError None
          (Sample.entering (TransactionCreate.mk "" zero work)
                           (SalaryLogCreate.mk (Fin 500) "2024-05" salary None)),
        [salaryMutation p]) /\
     exists e, Ledger.createIncomeEntry 7 "2024-05-31" p = Some e /\
               SalaryLog.amount_unused e = Fin 500).
Proof.
  split.
  - refine (proj1 (create_salary_log_validation
                     (Sample.entering
                        (TransactionCreate.mk "" zero work)
                        (SalaryLogCreate.mk zero "2024-05" salary None))) _).
    right. left. reflexivity.
  - destruct (proj2 (create_salary_log_validation
                       (Sample.entering
                          (TransactionCreate.mk "" zero work)
                          (SalaryLogCreate.mk (Fin 500) "2024-05" salary None))))
      as (p & Hp & _ & _ & _ & Hentry).
    + simpl. intros [H|[H|H]]; discriminate H.
    + exists p. split; [exact Hp|].
      destruct (Hentry 7 "2024-05-31") as (e & He & Ha & Hu).
      exists e. split; [exact He|]. rewrite Hu. exact Ha.
Defined.

(** C10.  Whenever [handleCreateSalaryLog] issues a request, its remark is
    the form's remark normalized: an absent or blank remark goes out as
    null, any other goes out trimmed, so that white space around a text is
    removed. *)
Theorem remark_normalized (st st' : State) (p : SalaryLogCreate.t) :
  handleCreateSalaryLog st = (st', [salaryMutation p]) ->
  let r := SalaryLogCreate.remark (salaryForm st) in
  (r = None -> SalaryLogCreate.remark p = None) /\
  (forall s, r = Some s -> whitespace_only s ->
             SalaryLogCreate.remark p = None) /\
  (forall s, r = Some s -> ~ whitespace_only s ->
             SalaryLogCreate.remark p = Some (trim s)) /\
  (forall pre core suf,
     r = Some (pre ++ core ++ suf) ->
     whitespace_only pre -> whitespace_only suf ->
     starts_nonws core -> ends_nonws core ->
     SalaryLogCreate.remark p = Some core).
Proof.
  intros Hrun r.
  destruct (handleCreateSalaryLog_issued st st' _ Hrun) as [H|H];
    [discriminate H|].
  injection H as ->. simpl. fold r. clearbody r. clear Hrun.
  repeat split.
  - intros ->. reflexivity.
  - intros s -> Hws. simpl. apply falsy_trim_iff in Hws. now rewrite Hws.
  - intros s -> Hws. simpl.
    destruct (falsy (trim s)) eqn:E; [|reflexivity].
    apply falsy_trim_iff in E. contradiction.
  - intros pre core suf -> Hpre Hsuf Hs He. simpl.
    rewrite (trim_core pre core suf Hpre Hsuf Hs He).
    destruct core; [destruct Hs|reflexivity].
Qed.

(** The remark "  paid  " goes out as "paid". *)
Lemma remark_normalized_witness :
  let st := Sample.entering (TransactionCreate.mk "" zero work)
              (SalaryLogCreate.mk (Fin 500) "2024-05" salary (Some "  paid  ")) in
  exists p,
    handleCreateSalaryLog st = (setEntryError None st, [salaryMutation p]) /\
    SalaryLogCreate.remark p = Some "paid".
Proof.
  intros st. eexists. split; [reflexivity|].
  refine (proj2 (proj2 (proj2 (remark_normalized st _ _ eq_refl)))
            "  " "paid" "  " eq_refl _ _ _ _); simpl; auto.
Defined.

End Entries.

(* ===================================================================== *)
(** ** Settlement on the ledger *)
(* ===================================================================== *)

Section Settlement.

Import JS.

#[local] Instance same_equiv : Equivalence same.
Proof.
  split.
  - intros [| | |x]; simpl; auto. reflexivity.
  - intros [| | |x] [| | |y]; simpl; auto. intros H. now symmetry.
  - intros [| | |x] [| | |y] [| | |z]; simpl; auto; try contradiction.
    intros H1 H2. now rewrite H1.
Qed.

#[local] Instance add_proper : Proper (same ==> same ==> same) add.
Proof.
  intros [| | |x] [| | |x'] Hx [| | |y] [| | |y'] Hy; simpl in *;
    auto; try contradiction.
  now rewrite Hx, Hy.
Qed.

#[local] Instance sub_proper : Proper (same ==> same ==> same) sub.
Proof.
  intros [| | |x] [| | |x'] Hx [| | |y] [| | |y'] Hy; simpl in *;
    auto; try contradiction.
  now rewrite Hx, Hy.
Qed.

(** Closes an identity between sums and differences of numbers by cases. *)
Ltac number_cases :=
  intros;
  repeat match goal with n : number |- _ => destruct n end;
  simpl; auto; ring.

Lemma add_comm (a b : number) : same (add a b) (add b a).
Proof. revert a b. number_cases. Qed.

Lemma add_assoc (a b c : number) : same (add a (add b c)) (add (add a b) c).
Proof. revert a b c. number_cases. Qed.

Lemma add_swap (a b c : number) : same (add a (add b c)) (add b (add a c)).
Proof. revert a b c. number_cases. Qed.

(** A sum does not depend on the order of its terms. *)
Lemma sum_perm (l l' : list number) :
  l ≡ₚ l' -> same (Ledger.sum l) (Ledger.sum l').
Proof.
  induction 1 as [|x l l' _ IH|x y l|l l' l'' _ IH1 _ IH2]; simpl.
  - reflexivity.
  - now rewrite IH.
  - apply add_swap.
  - now rewrite IH1.
Qed.

(** A sum over the store splits off the entry under any key. *)
Lemma sumOver_lookup {A} (f : A -> number) (m : gmap Z A) (k : Z) (x : A) :
  m !! k = Some x ->
  same (Ledger.sumOver f m) (add (f x) (Ledger.sumOver f (delete k m))).
Proof.
  intros Hk. unfold Ledger.sumOver.
  rewrite <- (sum_perm _ _ (fmap_Permutation f _ _
                (fmap_Permutation snd _ _ (map_to_list_delete m k x Hk)))).
  reflexivity.
Qed.

(** Overwriting the entry under [k] replaces its term in the sum. *)
Lemma sumOver_insert {A} (f : A -> number) (m : gmap Z A) (k : Z) (y : A) :
  same (Ledger.sumOver f (<[k := y]> m))
       (add (f y) (Ledger.sumOver f (delete k m))).
Proof.
  rewrite (sumOver_lookup f (<[k := y]> m) k y) by apply lookup_insert_eq.
  now rewrite delete_insert_eq.
Qed.

Lemma moved_balance (r R u U : number) (q : Q) :
  same (add (add (add r (Fin q)) R) (add (sub u (Fin q)) U))
       (add (add r R) (add u U)).
Proof. revert r R u U. number_cases. Qed.

Lemma stated_total_drop (o r R u U : number) (q : Q) :
  same (add (sub o (add (add r (Fin q)) R)) (add (sub u (Fin q)) U))
       (sub (add (sub o (add r R)) (add u U)) (add (Fin q) (Fin q))).
Proof. revert o r R u U. number_cases. Qed.

(** A failed [settle] returns the ledger it was given. *)
Lemma settle_failure_inv (L L' : Ledger.t) (d i : Z) (a : number)
    (e : Ledger.Error) :
  Ledger.settle L d i a = (L', inl e) -> L' = L.
Proof.
  unfold Ledger.settle.
  destruct (negb (isFinite a && gt a zero)); [now intros [= <- _]|].
  destruct (Ledger.debtEntries L !! d) as [dE|]; [|now intros [= <- _]].
  destruct (Ledger.incomeEntries L !! i) as [iE|]; [|now intros [= <- _]].
  destruct (negb (le a _)); [now intros [= <- _]|].
  destruct (negb (le a _)); [now intros [= <- _]|].
  discriminate.
Qed.

(** A successful [settle] found both entries, was given a finite amount
    above zero and wrote both updated entries. *)
Lemma settle_success_inv (L L' : Ledger.t) (d i : Z) (a : number)
    (r : Transaction.t * SalaryLog.t) :
  Ledger.settle L d i a = (L', inr r) ->
  exists q dE iE,
    a = Fin q /\ (0 < q)%Q /\
    Ledger.debtEntries L !! d = Some dE /\
    Ledger.incomeEntries L !! i = Some iE /\
    L' = Ledger.mk (<[d := Ledger.reimburse a dE]> (Ledger.debtEntries L))
                   (<[i := Ledger.consume a iE]> (Ledger.incomeEntries L)) /\
    r = (Ledger.reimburse a dE, Ledger.consume a iE).
Proof.
  unfold Ledger.settle.
  destruct (isFinite a && gt a zero) eqn:Ea; simpl negb; [|discriminate].
  apply andb_true_iff in Ea as [Hfin Hpos].
  destruct a as [| | |q]; try discriminate Hfin.
  apply gt_zero_iff in Hpos as [Hpos|(q' & [= <-] & Hq)]; [discriminate|].
  destruct (Ledger.debtEntries L !! d) as [dE|]; [|discriminate].
  destruct (Ledger.incomeEntries L !! i) as [iE|]; [|discriminate].
  destruct (negb (le (Fin q) (sub _ _))); [discriminate|].
  destruct (negb (le (Fin q) _)); [discriminate|].
  intros [= <- <-]. exists q, dE, iE. repeat split; auto.
Qed.

(** C1, as the design has it.  A failed [settle] leaves the ledger as it
    was.  A successful [settle d i a] writes both entries: the debt
    entry's reimbursed amount grows by exactly [a] and the income entry's
    unused amount shrinks by exactly [a]; the sum of all reimbursed and
    all unused amounts is unchanged, and the total of outstanding debt
    plus unused income drops by [a + a]. *)
Theorem settle_moves_balance (L : Ledger.t) (d i : Z) (a : number) :
  (forall L' e, Ledger.settle L d i a = (L', inl e) -> L' = L) /\
  (forall L' dE' iE',
     Ledger.settle L d i a = (L', inr (dE', iE')) ->
     exists dE iE,
       Ledger.debtEntries L !! d = Some dE /\
       Ledger.incomeEntries L !! i = Some iE /\
       Ledger.debtEntries L' = <[d := dE']> (Ledger.debtEntries L) /\
       Ledger.incomeEntries L' = <[i := iE']> (Ledger.incomeEntries L) /\
       Transaction.amount_reimbursed dE'
       = add (Transaction.amount_reimbursed dE) a /\
       SalaryLog.amount_unused iE' = sub (SalaryLog.amount_unused iE) a /\
       same (add (Ledger.totalReimbursed L') (Ledger.cashWaitingAllocation L'))
            (add (Ledger.totalReimbursed L) (Ledger.cashWaitingAllocation L)) /\
       same (add (Ledger.currentDebt L') (Ledger.cashWaitingAllocation L'))
            (sub (add (Ledger.currentDebt L) (Ledger.cashWaitingAllocation L))
                 (add a a))).
Proof.
  split; [intros L' e; apply settle_failure_inv|].
  intros L' dE' iE' Hrun.
  destruct (settle_success_inv _ _ _ _ _ _ Hrun)
    as (q & dE & iE & -> & Hq & Hd & Hi & -> & [= -> ->]).
  exists dE, iE. repeat split; auto.
  - unfold Ledger.totalReimbursed, Ledger.cashWaitingAllocation.
    cbn [Ledger.debtEntries Ledger.incomeEntries].
    rewrite !sumOver_insert.
    rewrite (sumOver_lookup Transaction.amount_reimbursed _ d dE Hd).
    rewrite (sumOver_lookup SalaryLog.amount_unused _ i iE Hi).
    apply moved_balance.
  - unfold Ledger.currentDebt, Ledger.totalLent, Ledger.totalReimbursed,
      Ledger.cashWaitingAllocation.
    cbn [Ledger.debtEntries Ledger.incomeEntries].
    rewrite !sumOver_insert.
    rewrite (sumOver_lookup Transaction.amount_reimbursed _ d dE Hd).
    rewrite (sumOver_lookup SalaryLog.amount_unused _ i iE Hi).
    rewrite (sumOver_lookup Transaction.amount_out _ d dE Hd).
    apply stated_total_drop.
Qed.

(** The first end-to-end scenario: a debt of 300 settled in full from an
    income of 500 leaves 300 reimbursed and 200 unused. *)
Lemma settle_moves_balance_witness :
  let dE' := Ledger.reimburse (Fin 300) (Sample.tx 300 0 pending) in
  let iE' := Ledger.consume (Fin 300) (Sample.log 7 500 500) in
  let L' := Ledger.mk (<[1 := dE']> (Ledger.debtEntries Sample.ledger))
                      (<[7 := iE']> (Ledger.incomeEntries Sample.ledger)) in
  Ledger.settle Sample.ledger 1 7 (Fin 300) = (L', inr (dE', iE')) /\
  Transaction.status dE' = settled /\
  same (add (Ledger.totalReimbursed L') (Ledger.cashWaitingAllocation L'))
       (add (Ledger.totalReimbursed Sample.ledger)
            (Ledger.cashWaitingAllocation Sample.ledger)).
Proof.
  intros dE' iE' L'. split; [reflexivity|]. split; [reflexivity|].
  destruct (proj2 (settle_moves_balance Sample.ledger 1 7 (Fin 300))
              L' dE' iE' eq_refl)
    as (dE & iE & _ & _ & _ & _ & _ & _ & Hsum & _).
  exact Hsum.
Defined.

(** C1, as stated: the total of outstanding debt plus unused income is
    not left unchanged.  In the first end-to-end scenario it is 800 before
    the settlement of 300 and 200 after it. *)
Lemma stated_total_not_conserved :
  ~ (forall (L L' : Ledger.t) (d i : Z) (a : number)
            (r : Transaction.t * SalaryLog.t),
       Ledger.settle L d i a = (L', inr r) ->
       same (add (Ledger.currentDebt L') (Ledger.cashWaitingAllocation L'))
            (add (Ledger.currentDebt L) (Ledger.cashWaitingAllocation L))).
Proof.
  intros H.
  specialize (H Sample.ledger _ 1 7 (Fin 300) _ eq_refl).
  vm_compute in H. discriminate H.
Qed.

End Settlement.

(* ===================================================================== *)
(** ** Worked values *)
(* ===================================================================== *)

Section Examples.

Local Open Scope string_scope.

Example Number_values :
  JS.Number "12.50" = JS.Fin (1250 # 100) /\
  JS.Number " 7 " = JS.Fin 7 /\
  JS.Number "" = JS.zero /\
  JS.Number "   " = JS.zero /\
  JS.Number "abc" = JS.NaN /\
  JS.Number "-3" = JS.Fin (-3) /\
  JS.Number "1e2" = JS.Fin 100 /\
  JS.Number ".5" = JS.Fin (5 # 10) /\
  JS.Number "5." = JS.Fin 5 /\
  JS.Number "." = JS.NaN /\
  JS.Number "1e" = JS.NaN /\
  JS.Number "0x1f" = JS.Fin 31 /\
  JS.Number "+0x1f" = JS.NaN /\
  JS.Number "-Infinity" = JS.NegInf /\
  JS.Number "Infinity" = JS.PosInf /\
  JS.Number "1 2" = JS.NaN.
Proof. repeat split. Qed.

Example String_values :
  JS.String_ 42 = "42" /\ JS.String_ 0 = "0" /\ JS.String_ (-5) = "-5".
Proof. repeat split. Qed.

Example trim_values :
  JS.trim "  a b  " = "a b" /\ JS.trim "" = "" /\ JS.trim "x" = "x".
Proof. repeat split. Qed.

(** The second end-to-end scenario: 300 owed, 200 already reimbursed; a
    settlement of 150 exceeds the 100 that remain and changes nothing. *)
Example settle_exceeding :
  let L := Ledger.mk {[ 1 := Sample.tx 300 200 partially_settled ]}
                     {[ 7 := Sample.log 7 500 500 ]} in
  Ledger.settle L 1 7 (JS.Fin 150) = (L, inl Ledger.exceeds_outstanding).
Proof. reflexivity. Qed.

(** A full submission through the dialog. *)
Example handleSubmit_issues :
  let st := Sample.dialog (Sample.tx 300 0 pending) "7" "300"
                          [Sample.log 7 500 500] in
  Page.handleSubmit st =
  (Page.setFormError None st,
   [Page.settleMutation (SettleRequest.mk 1 (JS.Fin 7) (JS.Fin 300))]).
Proof. reflexivity. Qed.

(** An amount above the selected salary log's unused balance. *)
Example handleSubmit_exceeds_salary :
  let st := Sample.dialog (Sample.tx 300 0 pending) "7" "300"
                          [Sample.log 7 500 200] in
  Page.handleSubmit st =
  (Page.setFormError (Some Page.msg_exceeds_salary) st, []).
Proof. reflexivity. Qed.

End Examples.

(* ===================================================================== *)
(** ** Identifiers through the select box *)
(* ===================================================================== *)

Section Identifiers.

Import JS.

Local Open Scope string_scope.

Lemma value_pos (d : Decimal.uint) (acc : positive) :
  Numeral.value d (Z.pos acc) = Z.pos (Pos.of_uint_acc d acc).
Proof.
  revert acc. induction d; intros acc; simpl;
    try reflexivity; rewrite <- IHd; f_equal; lia.
Qed.

Lemma value_zero (d : Decimal.uint) :
  Numeral.value d 0 = Z.of_N (Pos.of_uint d).
Proof.
  induction d; simpl; try reflexivity; try exact IHd; apply value_pos.
Qed.

(** Reading back the digits of a positive number gives the number. *)
Lemma value_to_uint (p : positive) :
  Numeral.value (Pos.to_uint p) 0 = Z.pos p.
Proof. now rewrite value_zero, DecimalPos.Unsigned.of_to. Qed.

Lemma digits_step (radix : N) (c : ascii) (s : string) (acc d : Z)
    (cnt : nat) :
  digit_of radix c = Some d ->
  digits radix (String c s) acc cnt
  = digits radix s (Z.of_N radix * acc + d) (S cnt).
Proof. intros H. simpl. now rewrite H. Qed.

Lemma digits_numeral (d : Decimal.uint) (acc : Z) (cnt : nat) :
  digits 10 (NilEmpty.string_of_uint d) acc cnt
  = (Numeral.value d acc, (cnt + Decimal.nb_digits d)%nat, "").
Proof.
  revert acc cnt.
  induction d; intros acc cnt; cbn [NilEmpty.string_of_uint Numeral.value
                                     Decimal.nb_digits];
    [ simpl; now rewrite Nat.add_0_r | .. ];
    erewrite digits_step by reflexivity;
    change (Z.of_N 10) with 10; rewrite IHd;
    now rewrite Nat.add_succ_comm.
Qed.

Lemma solid_trim (s : string) : Numeral.solid s -> trim s = s.
Proof.
  intros Hs. unfold trim.
  assert (Hstart : trimStart s = s).
  { destruct s as [|c s]; [reflexivity|]. simpl. now rewrite (proj1 Hs). }
  rewrite Hstart. clear Hstart.
  induction s as [|c s IH]; [reflexivity|].
  destruct Hs as [Hc Hs]. simpl. rewrite (IH Hs).
  destruct s; [now rewrite Hc|reflexivity].
Qed.

Lemma solid_numeral (d : Decimal.uint) :
  Numeral.solid (NilEmpty.string_of_uint d).
Proof. induction d; simpl; auto. Qed.

Lemma nonDecimal_numeral (d : Decimal.uint) :
  nonDecimal (NilEmpty.string_of_uint d) = None.
Proof. destruct d as [|d| | | | | | | | | ]; try reflexivity.
       destruct d; reflexivity. Qed.

Lemma unsignedDecimal_numeral (d : Decimal.uint) :
  d <> Decimal.Nil ->
  unsignedDecimal (NilEmpty.string_of_uint d)
  = Some (Fin (inject_Z (Numeral.value d 0))).
Proof.
  intros Hd. unfold unsignedDecimal.
  assert (Hinf : (NilEmpty.string_of_uint d =? "Infinity") = false)
    by (destruct d; reflexivity).
  rewrite Hinf, digits_numeral.
  assert (Hn : (0 <? 0 + Decimal.nb_digits d)%nat = true)
    by (destruct d; [contradiction|reflexivity..]).
  rewrite Hn. cbn. unfold scale10. cbn. now rewrite Z.mul_1_r.
Qed.

Lemma Number_numeral (d : Decimal.uint) :
  d <> Decimal.Nil ->
  Number (NilEmpty.string_of_uint d) = Fin (inject_Z (Numeral.value d 0)).
Proof.
  intros Hd. unfold Number.
  rewrite (solid_trim _ (solid_numeral d)), nonDecimal_numeral.
  transitivity (orNaN (unsignedDecimal (NilEmpty.string_of_uint d))).
  - destruct d; [contradiction|reflexivity..].
  - now rewrite (unsignedDecimal_numeral d Hd).
Qed.

Lemma String_pos (p : positive) :
  String_ (Z.pos p) = NilEmpty.string_of_uint (Pos.to_uint p).
Proof.
  unfold String_, Z.to_int, NilZero.string_of_int, NilZero.string_of_uint.
  pose proof (Unsigned.to_uint_nonnil p) as Hp.
  destruct (Pos.to_uint p); [contradiction|reflexivity..].
Qed.

Lemma String_neg (p : positive) :
  String_ (Z.neg p) = String "-" (NilEmpty.string_of_uint (Pos.to_uint p)).
Proof.
  unfold String_, Z.to_int, NilZero.string_of_int, NilZero.string_of_uint.
  pose proof (Unsigned.to_uint_nonnil p) as Hp.
  destruct (Pos.to_uint p); [contradiction|reflexivity..].
Qed.

(** [Number(String(id))] is [id]: the text the select box holds for a
    salary log reads back as that log's identifier. *)
Lemma Number_String_ (id : Z) : Number (String_ id) = Fin (inject_Z id).
Proof.
  destruct id as [|p|p]; [reflexivity| |].
  - rewrite String_pos, Number_numeral by apply Unsigned.to_uint_nonnil.
    now rewrite value_to_uint.
  - rewrite String_neg. unfold Number.
    assert (Hsolid : Numeral.solid
                       (String "-" (NilEmpty.string_of_uint (Pos.to_uint p)))).
    { split; [reflexivity|apply solid_numeral]. }
    rewrite (solid_trim _ Hsolid). cbn [falsy nonDecimal].
    rewrite unsignedDecimal_numeral by apply Unsigned.to_uint_nonnil.
    now rewrite value_to_uint.
Qed.

End Identifiers.

(* ===================================================================== *)
(** ** What an issued settlement guarantees *)
(* ===================================================================== *)

Section Issued.

Import JS Page.

Local Open Scope string_scope.

(** Everything [handleSubmit] has checked when a request goes out. *)
Lemma handleSubmit_issued_inv (st st' : State) (r : Request)
    (rs : list Request) :
  handleSubmit st = (st', r :: rs) ->
  rs = [] /\ st' = setFormError None st /\
  (forall c, fails st c = false) /\
  exists tx,
    selectedTransaction st = Some tx /\
    r = settleMutation
          (SettleRequest.mk (Transaction.id tx)
                            (Number (selectedSalaryId st))
                            (Number (amount st))).
Proof.
  rewrite handleSubmit_cascade. unfold rejection.
  destruct (fails st chk_transaction) eqn:E1; [discriminate|].
  destruct (fails st chk_salary_selected) eqn:E2; [discriminate|].
  destruct (fails st chk_amount) eqn:E3; [discriminate|].
  destruct (fails st chk_debt) eqn:E4; [discriminate|].
  destruct (fails st chk_salary_balance) eqn:E5; [discriminate|].
  destruct (selectedTransaction st) as [tx|] eqn:Etx; [|discriminate].
  intros [= <- <- <-]. repeat split.
  - intros c. destruct c; assumption.
  - exists tx. split; reflexivity.
Qed.

(** X1.  Whenever [handleSubmit] issues anything, it is one settle
    request, for the selected transaction, carrying the numeric values of
    the selected salary id and of the typed amount; the amount is above
    zero, not above the remaining debt and not above the unused balance of
    the matched salary log, and the form error is cleared. *)
Theorem submit_issues_only_valid (st st' : State) (r : Request)
    (rs : list Request) :
  handleSubmit st = (st', r :: rs) ->
  rs = [] /\ st' = setFormError None st /\
  exists tx,
    selectedTransaction st = Some tx /\
    r = settleMutation
          (SettleRequest.mk (Transaction.id tx)
                            (Number (selectedSalaryId st))
                            (Number (amount st))) /\
    selectedSalaryId st <> "" /\
    gt (Number (amount st)) zero = true /\
    gt (Number (amount st)) (remainingDebt st) = false /\
    (forall s, selectedSalary st = Some s ->
               gt (Number (amount st)) (SalaryLog.amount_unused s) = false).
Proof.
  intros Hrun.
  destruct (handleSubmit_issued_inv _ _ _ _ Hrun)
    as (-> & -> & Hpass & tx & Htx & ->).
  repeat split. exists tx. repeat split; auto.
  - apply falsy_nonempty. exact (Hpass chk_salary_selected).
  - pose proof (Hpass chk_amount) as Ha. unfold fails in Ha.
    apply orb_false_iff in Ha as [Ha Hle].
    apply orb_false_iff in Ha as [_ Hnan].
    apply passes_gt_zero. now rewrite Hnan, Hle.
  - exact (Hpass chk_debt).
  - intros s Hs. pose proof (Hpass chk_salary_balance) as Hb.
    unfold fails in Hb. now rewrite Hs in Hb.
Qed.

(** The full settlement of a debt of 300 from a salary log holding 500. *)
Lemma submit_issues_only_valid_witness :
  let st := Sample.dialog (Sample.tx 300 0 pending) "7" "300"
                          [Sample.log 7 500 500] in
  gt (Number (amount st)) zero = true /\
  gt (Number (amount st)) (remainingDebt st) = false.
Proof.
  intros st.
  destruct (submit_issues_only_valid st _ _ _ eq_refl)
    as (_ & _ & tx & _ & _ & _ & Hpos & Hdebt & _).
  split; [exact Hpos|exact Hdebt].
Defined.

(** X2.  Against a finite remaining debt the amount of an issued request
    is itself finite, above zero and at most that debt: an infinite amount
    never goes out. *)
Theorem submit_amount_within_finite_debt (st st' : State)
    (p : SettleRequest.t) (d : Q) :
  handleSubmit st = (st', [settleMutation p]) ->
  remainingDebt st = Fin d ->
  exists q, SettleRequest.amount p = Fin q /\ (0 < q)%Q /\ (q <= d)%Q.
Proof.
  intros Hrun Hd.
  destruct (handleSubmit_issued_inv _ _ _ _ Hrun)
    as (_ & _ & Hpass & tx & _ & [= ->]).
  cbn [SettleRequest.amount].
  pose proof (Hpass chk_amount) as Ha. unfold fails in Ha.
  apply orb_false_iff in Ha as [Ha Hle].
  apply orb_false_iff in Ha as [_ Hnan].
  pose proof (Hpass chk_debt) as Hdebt. unfold fails in Hdebt.
  rewrite Hd in Hdebt.
  destruct (Number (amount st)) as [| | |q]; try discriminate.
  exists q. split; [reflexivity|]. split.
  - apply Qltb_lt. unfold Qltb. simpl in Hle. now rewrite Hle.
  - unfold gt in Hdebt. simpl in Hdebt. now apply Qltb_le_false.
Qed.

Lemma submit_amount_within_finite_debt_witness :
  exists q, (0 < q)%Q /\ (q <= 300 - 0)%Q /\
    snd (handleSubmit (Sample.dialog (Sample.tx 300 0 pending) "7" "120.5"
                                     [Sample.log 7 500 500]))
    = [settleMutation (SettleRequest.mk 1 (Fin 7) (Fin q))].
Proof.
  destruct (submit_amount_within_finite_debt
              (Sample.dialog (Sample.tx 300 0 pending) "7" "120.5"
                             [Sample.log 7 500 500])
              _ _ (300 - 0)%Q eq_refl eq_refl)
    as (q & Hq & Hpos & Hle).
  injection Hq as <-. eexists. split; [exact Hpos|]. split; [exact Hle|].
  reflexivity.
Defined.

(** The salary log the dialog shows is an available one carrying the
    selected id; none is shown exactly when no available log carries it. *)
Lemma selectedSalary_some (st : State) (s : SalaryLog.t) :
  selectedSalary st = Some s ->
  In s (orEmpty (salaryLogs st)) /\
  gt (SalaryLog.amount_unused s) zero = true /\
  selectedSalaryId st = String_ (SalaryLog.id s).
Proof.
  unfold selectedSalary, availableSalaryLogs. intros H.
  apply List.find_some in H as [Hin Heq].
  apply List.filter_In in Hin as [Hin Hpos].
  apply String.eqb_eq in Heq. auto.
Qed.

(** X3.  The salary box matches by the text of the identifier.  The
    matched log is one of the loaded ones with an unused balance above
    zero whose identifier prints as the selected text, and no log is
    matched exactly when no such log is loaded. *)
Theorem selectedSalary_is_available (st : State) :
  (forall s, selectedSalary st = Some s ->
     In s (orEmpty (salaryLogs st)) /\
     gt (SalaryLog.amount_unused s) zero = true /\
     selectedSalaryId st = String_ (SalaryLog.id s) /\
     Number (selectedSalaryId st) = Fin (inject_Z (SalaryLog.id s))) /\
  (selectedSalary st = None <->
   forall s, In s (orEmpty (salaryLogs st)) ->
             gt (SalaryLog.amount_unused s) zero = true ->
             String_ (SalaryLog.id s) <> selectedSalaryId st).
Proof.
  split.
  - intros s Hs. destruct (selectedSalary_some st s Hs) as (Hin & Hpos & Hid).
    repeat split; auto. rewrite Hid. apply Number_String_.
  - unfold selectedSalary, availableSalaryLogs. split.
    + intros Hnone s Hin Hpos Heq.
      pose proof (List.find_none _ _ Hnone s
                    (proj2 (List.filter_In _ _ _) (conj Hin Hpos))) as Hs.
      cbv beta in Hs. rewrite Heq, String.eqb_refl in Hs. discriminate Hs.
    + intros Hall.
      destruct (List.find _ _) as [s|] eqn:Hf; [|reflexivity].
      apply List.find_some in Hf as [Hin Heq].
      apply List.filter_In in Hin as [Hin Hpos].
      apply String.eqb_eq in Heq. now destruct (Hall s Hin Hpos).
Qed.

(** Of two logs, one used up and one holding 200, the id "8" matches the
    second and reads back as 8; the id "7" matches nothing. *)
Lemma selectedSalary_is_available_witness :
  let logs := [Sample.log 7 500 0; Sample.log 8 500 200] in
  let st := Sample.dialog (Sample.tx 300 0 pending) "8" "" logs in
  selectedSalary (Sample.dialog (Sample.tx 300 0 pending) "7" "" logs) = None /\
  selectedSalary st = Some (Sample.log 8 500 200) /\
  Number (selectedSalaryId st) = Fin (inject_Z 8).
Proof.
  intros logs st. split; [reflexivity|]. split; [reflexivity|].
  exact (proj2 (proj2 (proj2
           (proj1 (selectedSalary_is_available st)
                  (Sample.log 8 500 200) eq_refl)))).
Defined.

(** X4.  With a salary log matched, an issued request names that log: its
    [salary_log_id] is the log's identifier, and its amount is not above
    the log's unused balance. *)
Theorem submit_names_matched_log (st st' : State) (p : SettleRequest.t)
    (s : SalaryLog.t) :
  handleSubmit st = (st', [settleMutation p]) ->
  selectedSalary st = Some s ->
  SettleRequest.salary_log_id p = Fin (inject_Z (SalaryLog.id s)) /\
  gt (SettleRequest.amount p) (SalaryLog.amount_unused s) = false.
Proof.
  intros Hrun Hs.
  destruct (handleSubmit_issued_inv _ _ _ _ Hrun)
    as (_ & _ & Hpass & tx & _ & [= ->]).
  cbn [SettleRequest.salary_log_id SettleRequest.amount]. split.
  - destruct (selectedSalary_some st s Hs) as (_ & _ & ->).
    apply Number_String_.
  - pose proof (Hpass chk_salary_balance) as Hb.
    unfold fails in Hb. now rewrite Hs in Hb.
Qed.

Lemma submit_names_matched_log_witness :
  let st := Sample.dialog (Sample.tx 300 0 pending) "8" "150"
              [Sample.log 7 500 500; Sample.log 8 500 200] in
  snd (handleSubmit st)
  = [settleMutation (SettleRequest.mk 1 (Fin (inject_Z 8)) (Fin 150))] /\
  Fin (inject_Z 8) = Fin (inject_Z (SalaryLog.id (Sample.log 8 500 200))).
Proof.
  intros st. split; [reflexivity|].
  exact (proj1 (submit_names_matched_log st _ _ (Sample.log 8 500 200)
                  eq_refl eq_refl)).
Defined.

Lemma Number_blank (s : string) : whitespace_only s -> Number s = zero.
Proof.
  intros H. unfold Number. apply trim_empty_iff in H. now rewrite H.
Qed.

(** X5.  An amount made of white space only, though not an empty text, is
    rejected as invalid: it reads as zero. *)
Theorem blank_amount_rejected (st : State) (tx : Transaction.t) :
  selectedTransaction st = Some tx ->
  selectedSalaryId st <> "" ->
  whitespace_only (amount st) ->
  Number (amount st) = zero /\
  handleSubmit st = (setFormError (Some msg_invalid_amount) st, []).
Proof.
  intros Htx Hid Hws. pose proof (Number_blank _ Hws) as Hz.
  split; [exact Hz|].
  destruct (selection_passes st tx Htx Hid) as [H1 H2].
  rewrite handleSubmit_cascade, H1, H2.
  assert (Hbad : fails st chk_amount = true).
  { unfold fails. rewrite Hz. simpl. apply orb_true_r. }
  now rewrite Hbad.
Qed.

Lemma blank_amount_rejected_witness :
  handleSubmit (Sample.dialog (Sample.tx 300 0 pending) "7" "  "
                              [Sample.log 7 500 500])
  = (setFormError (Some msg_invalid_amount)
       (Sample.dialog (Sample.tx 300 0 pending) "7" "  "
                      [Sample.log 7 500 500]), []).
Proof.
  refine (proj2 (blank_amount_rejected
                   (Sample.dialog (Sample.tx 300 0 pending) "7" "  "
                                  [Sample.log 7 500 500])
                   (Sample.tx 300 0 pending) eq_refl _ _)).
  - discriminate.
  - simpl. auto.
Defined.

End Issued.

(* ===================================================================== *)
(** ** What the forms send *)
(* ===================================================================== *)

Section Sent.

Import JS Page.

Local Open Scope string_scope.

Lemma trimEnd_tail (s : string) : trimEnd s = "" \/ ends_nonws (trimEnd s).
Proof.
  induction s as [|c s IH]; simpl; [now left|].
  destruct (trimEnd s) as [|c' t] eqn:Et.
  - destruct (is_ws c) eqn:Ec; [now left|right; exact Ec].
  - right. destruct IH as [IH|IH]; [discriminate IH|exact IH].
Qed.

Lemma trimEnd_keeps_head (s : string) :
  starts_nonws s -> starts_nonws (trimEnd s).
Proof.
  destruct s as [|c s]; simpl; [tauto|]. intros Hc.
  destruct (trimEnd s); [now rewrite Hc|exact Hc].
Qed.

(** What [trim] returns is empty, or begins and ends with a visible
    character. *)
Lemma trim_shape (s : string) :
  trim s = "" \/ (starts_nonws (trim s) /\ ends_nonws (trim s)).
Proof.
  unfold trim. destruct (trimStart_head s) as [H|H].
  - left. now rewrite H.
  - right. split; [now apply trimEnd_keeps_head|].
    destruct (trimEnd_tail (trimStart s)) as [E|E]; [|exact E].
    apply trimEnd_keeps_head in H. rewrite E in H. destruct H.
Qed.

Lemma trimEnd_fixed (s : string) : ends_nonws s -> trimEnd s = s.
Proof.
  induction s as [|c s IH]; [intros []|].
  destruct s as [|c' s].
  - simpl. now intros ->.
  - intros H.
    change (trimEnd (String c (String c' s)))
      with (match trimEnd (String c' s) with
            | "" => if is_ws c then "" else String c ""
            | t => String c t
            end).
    now rewrite (IH H).
Qed.

Lemma trim_idempotent (s : string) : trim (trim s) = trim s.
Proof.
  destruct (trim_shape s) as [H|[Hs He]]; [now rewrite H|].
  unfold trim at 1. rewrite (trimStart_fixed _ Hs). now apply trimEnd_fixed.
Qed.

(** The only request [handleUpdateTransaction] can issue. *)
Lemma handleUpdateTransaction_issued (st st' : State) (r : Request)
    (rs : list Request) :
  handleUpdateTransaction st = (st', r :: rs) ->
  rs = [] /\ st' = setEditError None st /\
  exists tx,
    editingTransaction st = Some tx /\
    trim (TransactionUpdate.title (editForm st)) <> "" /\
    gt (TransactionUpdate.amount_out (editForm st)) zero = true /\
    r = updateMutation
          (Transaction.id tx)
          (TransactionUpdate.mk (trim (TransactionUpdate.title (editForm st)))
                                (TransactionUpdate.amount_out (editForm st))
                                (TransactionUpdate.category (editForm st))).
Proof.
  unfold handleUpdateTransaction.
  destruct (editingTransaction st) as [tx|]; [|discriminate].
  destruct (falsy _) eqn:Et; [discriminate|].
  destruct (isNaN _ || le _ zero) eqn:Ea; [discriminate|].
  intros [= <- <- <-]. repeat split. exists tx. repeat split.
  - now apply falsy_nonempty.
  - now apply passes_gt_zero.
Qed.

(** The only request [handleCreateTransaction] can issue. *)
Lemma handleCreateTransaction_issued (st st' : State) (r : Request)
    (rs : list Request) :
  handleCreateTransaction st = (st', r :: rs) ->
  rs = [] /\ st' = setEntryError None st /\
  ~ whitespace_only (TransactionCreate.title (transactionForm st)) /\
  gt (TransactionCreate.amount_out (transactionForm st)) zero = true /\
  r = transactionMutation
        (TransactionCreate.mk
           (TransactionCreate.title (transactionForm st))
           (TransactionCreate.amount_out (transactionForm st))
           (TransactionCreate.category (transactionForm st))).
Proof.
  unfold handleCreateTransaction.
  destruct (falsy _) eqn:Et; [discriminate|].
  destruct (isNaN _ || le _ zero) eqn:Ea; [discriminate|].
  intros [= <- <- <-]. repeat split.
  - intros H. apply falsy_trim_iff in H. congruence.
  - now apply passes_gt_zero.
Qed.

(** X6.  An update goes out with a title that is never blank, begins and
    ends with a visible character and is left alone by a further [trim];
    a create request carries the title exactly as typed, surrounding white
    space included. *)
Theorem titles_sent (st st' : State) :
  (forall id p, handleUpdateTransaction st = (st', [updateMutation id p]) ->
     TransactionUpdate.title p = trim (TransactionUpdate.title (editForm st)) /\
     starts_nonws (TransactionUpdate.title p) /\
     ends_nonws (TransactionUpdate.title p) /\
     trim (TransactionUpdate.title p) = TransactionUpdate.title p) /\
  (forall p, handleCreateTransaction st = (st', [transactionMutation p]) ->
     TransactionCreate.title p = TransactionCreate.title (transactionForm st) /\
     ~ whitespace_only (TransactionCreate.title p)).
Proof.
  split.
  - intros id p Hrun.
    destruct (handleUpdateTransaction_issued _ _ _ _ Hrun)
      as (_ & _ & tx & _ & Hne & _ & [= -> ->]).
    cbn [TransactionUpdate.title].
    destruct (trim_shape (TransactionUpdate.title (editForm st)))
      as [E|[Hs He]]; [contradiction|].
    repeat split; auto. apply trim_idempotent.
  - intros p Hrun.
    destruct (handleCreateTransaction_issued _ _ _ _ Hrun)
      as (_ & _ & Hws & _ & [= ->]).
    cbn [TransactionCreate.title]. split; [reflexivity|exact Hws].
Qed.

(** The title " fuel " is sent as "fuel" by an update and as " fuel " by a
    create. *)
Lemma titles_sent_witness :
  let st := Sample.editing (Sample.tx 300 0 pending)
                           (TransactionUpdate.mk " fuel " (Fin 300) work) in
  let st2 := Sample.entering (TransactionCreate.mk " fuel " (Fin 300) work)
                             (SalaryLogCreate.mk zero "" salary None) in
  trim " fuel " = "fuel" /\
  TransactionCreate.title (TransactionCreate.mk " fuel " (Fin 300) work)
  = " fuel ".
Proof.
  intros st st2. split.
  - exact (eq_sym (proj1 (proj1 (titles_sent st _) 1
                     (TransactionUpdate.mk "fuel" (Fin 300) work) eq_refl))).
  - exact (proj1 (proj2 (titles_sent st2 _)
                    (TransactionCreate.mk " fuel " (Fin 300) work) eq_refl)).
Defined.

(** X7.  The remark of an issued income request is null or a text that
    begins and ends with a visible character, never an empty or blank
    one; normalizing it again changes nothing. *)
Theorem remark_never_blank (st st' : State) (p : SalaryLogCreate.t) :
  handleCreateSalaryLog st = (st', [salaryMutation p]) ->
  match SalaryLogCreate.remark p with
  | None => True
  | Some r => r <> "" /\ starts_nonws r /\ ends_nonws r
  end /\
  normalizeRemark (SalaryLogCreate.remark p) = SalaryLogCreate.remark p.
Proof.
  intros Hrun.
  destruct (handleCreateSalaryLog_issued st st' _ Hrun) as [H|H];
    [discriminate H|].
  injection H as ->. cbn [SalaryLogCreate.remark].
  destruct (SalaryLogCreate.remark (salaryForm st)) as [r|]; simpl;
    [|split; auto].
  destruct (falsy (trim r)) eqn:E; simpl; [split; auto|].
  apply falsy_nonempty in E.
  destruct (trim_shape r) as [H|[Hs He]]; [contradiction|].
  split; [auto|]. rewrite trim_idempotent.
  apply falsy_nonempty in E. now rewrite E.
Qed.

Lemma remark_never_blank_witness :
  let st := Sample.entering (TransactionCreate.mk "" zero work)
              (SalaryLogCreate.mk (Fin 500) "2024-05" salary (Some " ok ")) in
  normalizeRemark (Some "ok") = Some "ok".
Proof.
  intros st.
  exact (proj2 (remark_never_blank st _
                  (SalaryLogCreate.mk (Fin 500) "2024-05" salary (Some "ok"))
                  eq_refl)).
Defined.

(** X8.  Which message a form shows when several fields are wrong: a
    blank title wins over a bad amount in the create and edit forms, a bad
    amount wins over a missing month in the income form; with no entry
    being edited the edit handler does nothing at all. *)
Theorem entry_forms_first_error (st : State) :
  (whitespace_only (TransactionCreate.title (transactionForm st)) ->
   handleCreateTransaction st = (setEntryError (Some msg_entry_title) st, []))
  /\
  (~ whitespace_only (TransactionCreate.title (transactionForm st)) ->
   gt (TransactionCreate.amount_out (transactionForm st)) zero = false ->
   handleCreateTransaction st = (setEntryError (Some msg_entry_amount) st, []))
  /\
  (gt (SalaryLogCreate.amount (salaryForm st)) zero = false ->
   handleCreateSalaryLog st = (setEntryError (Some msg_salary_amount) st, []))
  /\
  (gt (SalaryLogCreate.amount (salaryForm st)) zero = true ->
   SalaryLogCreate.month (salaryForm st) = "" ->
   handleCreateSalaryLog st = (setEntryError (Some msg_salary_month) st, []))
  /\
  (editingTransaction st = None -> handleUpdateTransaction st = (st, []))
  /\
  (forall tx, editingTransaction st = Some tx ->
   (whitespace_only (TransactionUpdate.title (editForm st)) ->
    handleUpdateTransaction st = (setEditError (Some msg_edit_title) st, []))
   /\
   (~ whitespace_only (TransactionUpdate.title (editForm st)) ->
    gt (TransactionUpdate.amount_out (editForm st)) zero = false ->
    handleUpdateTransaction st = (setEditError (Some msg_edit_amount) st, []))).
Proof.
  assert (Hbad : forall n, gt n zero = false -> isNaN n || le n zero = true).
  { intros n Hn. destruct (isNaN n || le n zero) eqn:E; [reflexivity|].
    apply passes_gt_zero in E. congruence. }
  assert (Hnws : forall s, ~ whitespace_only s -> falsy (trim s) = false).
  { intros s Hs. destruct (falsy (trim s)) eqn:E; [|reflexivity].
    apply falsy_trim_iff in E. contradiction. }
  repeat split.
  - intros Hws. unfold handleCreateTransaction.
    now rewrite (proj2 (falsy_trim_iff _) Hws).
  - intros Hws Hamt. unfold handleCreateTransaction.
    now rewrite (Hnws _ Hws), (Hbad _ Hamt).
  - intros Hamt. unfold handleCreateSalaryLog. now rewrite (Hbad _ Hamt).
  - intros Hamt Hm. unfold handleCreateSalaryLog.
    now rewrite (gt_zero_passes _ Hamt), Hm.
  - intros Hn. unfold handleUpdateTransaction. now rewrite Hn.
  - intros Hws. unfold handleUpdateTransaction.
    now rewrite H, (proj2 (falsy_trim_iff _) Hws).
  - intros Hws Hamt. unfold handleUpdateTransaction.
    now rewrite H, (Hnws _ Hws), (Hbad _ Hamt).
Qed.

(** A blank title with an amount of zero: the title message; an amount of
    zero with no month: the amount message. *)
Lemma entry_forms_first_error_witness :
  let st := Sample.entering (TransactionCreate.mk "  " zero work)
                            (SalaryLogCreate.mk zero "" salary None) in
  handleCreateTransaction st = (setEntryError (Some msg_entry_title) st, []) /\
  handleCreateSalaryLog st = (setEntryError (Some msg_salary_amount) st, []).
Proof.
  intros st. split.
  - refine (proj1 (entry_forms_first_error st) _). simpl. auto.
  - exact (proj1 (proj2 (proj2 (entry_forms_first_error st))) eq_refl).
Defined.

(** The guards of [handleSubmit] do not read the form error. *)
Lemma fails_ignores_error (e : option Message) (st : State) (c : Check) :
  fails (setFormError e st) c = fails st c.
Proof. destruct c; reflexivity. Qed.

(** X9.  Pressing a form's button a second time with nothing changed
    gives the same verdict: the same requests and the same state as the
    first press left. *)
Theorem handlers_repeat (st : State) :
  handleSubmit (fst (handleSubmit st)) = handleSubmit st /\
  handleCreateTransaction (fst (handleCreateTransaction st))
  = handleCreateTransaction st /\
  handleCreateSalaryLog (fst (handleCreateSalaryLog st))
  = handleCreateSalaryLog st /\
  handleUpdateTransaction (fst (handleUpdateTransaction st))
  = handleUpdateTransaction st.
Proof.
  repeat split.
  - unfold handleSubmit.
    destruct (selectedTransaction st) as [tx|] eqn:Etx; simpl;
      [|now rewrite Etx].
    destruct (falsy (selectedSalaryId st)) eqn:E1; simpl;
      [now rewrite Etx, E1|].
    destruct (falsy (amount st) || isNaN (Number (amount st))
              || le (Number (amount st)) zero) eqn:E2; simpl;
      [now rewrite Etx, E1, E2|].
    destruct (gt (Number (amount st)) (remainingDebt st)) eqn:E3; simpl.
    { rewrite Etx, E1, E2.
      change (remainingDebt (setFormError (Some msg_exceeds_debt) st))
        with (remainingDebt st).
      now rewrite E3. }
    destruct (match selectedSalary st with
              | Some s => gt (Number (amount st)) (SalaryLog.amount_unused s)
              | None => false
              end) eqn:E4; simpl; rewrite Etx, E1, E2.
    + change (remainingDebt (setFormError (Some msg_exceeds_salary) st))
        with (remainingDebt st).
      change (selectedSalary (setFormError (Some msg_exceeds_salary) st))
        with (selectedSalary st).
      now rewrite E3, E4.
    + change (remainingDebt (setFormError None st)) with (remainingDebt st).
      change (selectedSalary (setFormError None st)) with (selectedSalary st).
      now rewrite E3, E4.
  - unfold handleCreateTransaction.
    destruct (falsy (trim (TransactionCreate.title (transactionForm st))))
      eqn:E1; simpl; [now rewrite E1|].
    destruct (isNaN (TransactionCreate.amount_out (transactionForm st))
              || le (TransactionCreate.amount_out (transactionForm st)) zero)
      eqn:E2; simpl; now rewrite E1, E2.
  - unfold handleCreateSalaryLog.
    destruct (isNaN (SalaryLogCreate.amount (salaryForm st))
              || le (SalaryLogCreate.amount (salaryForm st)) zero)
      eqn:E1; simpl; [now rewrite E1|].
    destruct (falsy (SalaryLogCreate.month (salaryForm st))) eqn:E2; simpl;
      now rewrite E1, E2.
  - unfold handleUpdateTransaction.
    destruct (editingTransaction st) as [tx|] eqn:Etx; simpl;
      [|now rewrite Etx].
    destruct (falsy (trim (TransactionUpdate.title (editForm st)))) eqn:E1;
      simpl; [now rewrite Etx, E1|].
    destruct (isNaN (TransactionUpdate.amount_out (editForm st))
              || le (TransactionUpdate.amount_out (editForm st)) zero)
      eqn:E2; simpl; now rewrite Etx, E1, E2.
Qed.

(** X10.  The edit handler of the second revision and the latest one give
    the same verdict on the same form: the same message, and the same
    request but for the category the latest one adds. *)
Theorem update_revisions_agree (st : State) :
  PageV2.handleUpdateTransaction (ofLater st)
  = (ofLater (fst (handleUpdateTransaction st)),
     omap withoutCategory (snd (handleUpdateTransaction st))).
Proof.
  unfold PageV2.handleUpdateTransaction, handleUpdateTransaction, ofLater.
  cbn [PageV2.editingTransaction PageV2.editForm
       PageV2.TransactionUpdate.title PageV2.TransactionUpdate.amount_out].
  destruct (editingTransaction st) as [tx|] eqn:Etx;
    [|simpl; now rewrite Etx].
  destruct (falsy _) eqn:E1; [simpl; now rewrite Etx|].
  destruct (isNaN _ || le _ zero) eqn:E2; simpl; now rewrite Etx.
Qed.

End Sent.

(* ===================================================================== *)
(** ** Dialogs, tabs and callbacks *)
(* ===================================================================== *)

Section Dialogs.

Import JS Page.

Local Open Scope string_scope.

(** X11.  The pending tab lists exactly the rows of the history tab that
    carry the settle button, in the same order; so every row of the
    pending tab carries it, and the history tab lists every loaded
    entry. *)
Theorem settle_button_rows (v : View.t) :
  View.displayTransactions (View.setActiveTab View.tab_pending v)
  = List.filter View.hasSettleButton
      (View.displayTransactions (View.setActiveTab View.tab_history v)) /\
  List.Forall (fun item => View.hasSettleButton item = true)
    (View.displayTransactions (View.setActiveTab View.tab_pending v)) /\
  View.displayTransactions (View.setActiveTab View.tab_history v)
  = orEmpty (transactions (View.page v)).
Proof.
  split; [reflexivity|]. split; [|reflexivity].
  apply List.Forall_forall. intros item Hin.
  unfold View.displayTransactions, unsettledTransactions in Hin.
  cbn [View.activeTab View.setActiveTab View.page] in Hin.
  now apply List.filter_In in Hin as [_ H].
Qed.

(** An identifier never prints as the empty text. *)
Lemma String_nonempty (id : Z) : String_ id <> "".
Proof.
  destruct id as [|p|p]; [discriminate| |].
  - rewrite String_pos. pose proof (Unsigned.to_uint_nonnil p) as Hp.
    destruct (Pos.to_uint p); [contradiction|discriminate..].
  - rewrite String_neg. discriminate.
Qed.

(** X12.  Opening the settle dialog on a row starts from nothing: the
    remaining debt is the amount due shown in the row, no salary log is
    matched whatever was selected before, and submitting at once only asks
    for a salary, with no request. *)
Theorem fresh_dialog_asks_for_salary (v : View.t) (item : Transaction.t) :
  remainingDebt (View.page (View.openDialog item v)) = View.due item /\
  selectedSalary (View.page (View.openDialog item v)) = None /\
  View.run handleSubmit (View.openDialog item v)
  = (View.onPage (setFormError (Some msg_select_salary))
                 (View.openDialog item v), []).
Proof.
  split; [reflexivity|]. split; [|reflexivity].
  unfold selectedSalary.
  cbn [View.page View.openDialog View.setOpen View.onPage selectedSalaryId
       setFormError View.setAmount View.setSelectedSalaryId].
  destruct (List.find _ _) as [s|] eqn:Hf; [|reflexivity].
  apply List.find_some in Hf as [_ Heq]. apply String.eqb_eq in Heq.
  now apply String_nonempty in Heq.
Qed.

(** X13.  Under the status invariant the settle button sits on exactly
    the rows whose dialog opens with a remaining debt above zero. *)
Theorem settle_button_opens_outstanding (v : View.t) (item : Transaction.t) :
  statusInvariant item ->
  View.hasSettleButton item
  = gt (remainingDebt (View.page (View.openDialog item v))) zero.
Proof.
  intros Hinv. symmetry. exact (outstanding_iff_unsettled item Hinv).
Qed.

Lemma settle_button_opens_outstanding_witness :
  View.hasSettleButton (Sample.tx 300 100 partially_settled) = true /\
  gt (remainingDebt
        (View.page (View.openDialog (Sample.tx 300 100 partially_settled)
                                    (Scenario.idle Scenario.three [])))) zero
  = true.
Proof.
  split; [reflexivity|].
  rewrite <- (settle_button_opens_outstanding
                (Scenario.idle Scenario.three [])
                (Sample.tx 300 100 partially_settled)).
  - reflexivity.
  - repeat split; try reflexivity; discriminate.
Defined.

(** X14.  Saving an entry right after opening its edit dialog sends the
    entry's own amount and category and its title trimmed, provided the
    title is not blank and the amount is above zero; an entry with a blank
    title or an amount not above zero cannot be saved unchanged. *)
Theorem edit_save_unchanged (v : View.t) (item : Transaction.t) :
  (~ whitespace_only (Transaction.title item) ->
   gt (Transaction.amount_out item) zero = true ->
   View.run handleUpdateTransaction (View.openEditDialog item v)
   = (View.onPage (setEditError None) (View.openEditDialog item v),
      [View.form
         (updateMutation
            (Transaction.id item)
            (TransactionUpdate.mk (trim (Transaction.title item))
                                  (Transaction.amount_out item)
                                  (Transaction.category item)))])) /\
  (whitespace_only (Transaction.title item) \/
   gt (Transaction.amount_out item) zero = false ->
   snd (View.run handleUpdateTransaction (View.openEditDialog item v)) = []).
Proof.
  unfold View.run, View.openEditDialog, handleUpdateTransaction.
  cbn [View.page View.setEditOpen View.onPage editingTransaction editForm
       setEditError View.setEditForm View.setEditingTransaction
       TransactionUpdate.title TransactionUpdate.amount_out
       TransactionUpdate.category].
  split.
  - intros Hws Hpos.
    destruct (falsy (trim (Transaction.title item))) eqn:E.
    { apply falsy_trim_iff in E. contradiction. }
    now rewrite (gt_zero_passes _ Hpos).
  - intros [Hws|Hamt].
    + now rewrite (proj2 (falsy_trim_iff _) Hws).
    + destruct (falsy (trim (Transaction.title item))); [reflexivity|].
      destruct (isNaN (Transaction.amount_out item)
                || le (Transaction.amount_out item) zero) eqn:E;
        [reflexivity|].
      apply passes_gt_zero in E. congruence.
Qed.

Lemma edit_save_unchanged_witness :
  snd (View.run handleUpdateTransaction
         (View.openEditDialog (Sample.tx 300 100 partially_settled)
                              (Scenario.idle Scenario.three [])))
  = [View.form (updateMutation 1 (TransactionUpdate.mk "fuel" (Fin 300) work))].
Proof.
  rewrite (proj1 (edit_save_unchanged (Scenario.idle Scenario.three [])
                    (Sample.tx 300 100 partially_settled))).
  - reflexivity.
  - simpl. intros [H _]. discriminate H.
  - reflexivity.
Defined.

(** X15.  Deleting is not guarded: confirming the delete dialog opened on
    any entry, whatever its status and amounts, issues the delete request
    for that entry and changes nothing else; with no entry chosen nothing
    is issued. *)
Theorem delete_unguarded (v : View.t) :
  (forall item,
     View.handleDeleteTransaction (View.openDeleteDialog item v)
     = (View.openDeleteDialog item v,
        [View.deleteMutation (Transaction.id item)])) /\
  (View.deletingTransaction v = None ->
   View.handleDeleteTransaction v = (v, [])).
Proof.
  split; [reflexivity|].
  intros H. unfold View.handleDeleteTransaction. now rewrite H.
Qed.

Lemma delete_unguarded_witness :
  View.handleDeleteTransaction (Scenario.idle Scenario.three [])
  = (Scenario.idle Scenario.three [], []) /\
  snd (View.handleDeleteTransaction
         (View.openDeleteDialog (Sample.tx 300 300 settled)
                                (Scenario.idle Scenario.three [])))
  = [View.deleteMutation 1].
Proof.
  split.
  - exact (proj2 (delete_unguarded (Scenario.idle Scenario.three [])) eq_refl).
  - now rewrite (proj1 (delete_unguarded (Scenario.idle Scenario.three []))).
Defined.

(** X16.  After a creation has succeeded its form is back to its initial
    values, so pressing the button again sends nothing: the title message
    for a transaction, the amount message for an income.  A successful
    update or settlement leaves its form as it was. *)
Theorem success_resets_entry_forms (v : View.t) :
  View.run handleCreateTransaction (fst (View.transaction_onSuccess v))
  = (View.onPage (setEntryError (Some msg_entry_title))
                 (fst (View.transaction_onSuccess v)), []) /\
  View.run handleCreateSalaryLog (fst (View.salary_onSuccess v))
  = (View.onPage (setEntryError (Some msg_salary_amount))
                 (fst (View.salary_onSuccess v)), []) /\
  View.page (fst (View.update_onSuccess v)) = View.page v /\
  View.page (fst (View.settle_onSuccess v)) = View.page v.
Proof. repeat split. Qed.

End Dialogs.
